(** * SklearnPolicy: featurization, prediction reconciliation and persistence

    A shallow embedding of [rasa/core/policies/sklearn_policy.py].

    Conventions of the embedding:
    - a Python exception is a value of [exception]; a call that may raise
      returns a [result];
    - numpy float entries are embedded as rationals [Q]: the policy never
      computes with them, apart from [np.ones(..) * -1], it only moves them;
    - a numpy array is embedded with its [shape] next to its entries, and the
      arrays the policy handles are two-dimensional (one-dimensional slot
      cells are lifted with [expand_dims] before anything else reads them). *)

From Stdlib Require Import ZArith QArith Ascii.
From stdpp Require Import base option list sorting gmap strings fin_maps.

Local Open Scope Z_scope.

(** ** Exceptions and fallible calls *)

Inductive exception : Type :=
  | IndexError
  | ValueError
  | TypeError
  | OSError
  | AssertionError
  | KeyError
  | NotFittedError.

Inductive result (A : Type) : Type :=
  | Ok (a : A)
  | Raise (e : exception).

Arguments Ok {A} a.
Arguments Raise {A} e.

#[global] Instance result_ret : MRet result := fun _ a => Ok a.
#[global] Instance result_bind : MBind result := fun _ _ f m =>
  match m with
  | Ok a => f a
  | Raise e => Raise e
  end.

Definition raises {A} (m : result A) (e : exception) : Prop := m = Raise e.

Definition returns {A} (m : result A) (a : A) : Prop := m = Ok a.

(** [for x in xs: acc = body(acc, x)], stopping at the first exception. *)
Fixpoint for_each {A S : Type} (body : S → A → result S) (xs : list A)
    (acc : S) : result S :=
  match xs with
  | [] => Ok acc
  | x :: xs' => acc' ← body acc x; for_each body xs' acc'
  end.

(** ** Python lists *)

Module Py.

(** [l[i]] for an integer index: negative indices count from the end,
    anything outside [-len, len) raises IndexError. *)
Definition index (n : nat) (i : Z) : option nat :=
  if bool_decide (0 ≤ i < Z.of_nat n) then Some (Z.to_nat i)
  else if bool_decide (- Z.of_nat n ≤ i < 0) then Some (Z.to_nat (Z.of_nat n + i))
  else None.

Definition getitem {A} (l : list A) (i : Z) : result A :=
  match index (length l) i with
  | Some k => match l !! k with Some x => Ok x | None => Raise IndexError end
  | None => Raise IndexError
  end.

(** [l[i] = x] *)
Definition setitem {A} (l : list A) (i : Z) (x : A) : result (list A) :=
  match index (length l) i with
  | Some k => Ok (<[k:=x]> l)
  | None => Raise IndexError
  end.

(** [[x] * n]: a non-positive count gives the empty list. *)
Definition repeat {A} (x : A) (n : Z) : list A := replicate (Z.to_nat n) x.

(** [len(l)] *)
Definition len {A} (l : list A) : Z := Z.of_nat (length l).

(** [max(l)] on integers; [max([])] raises ValueError. *)
Definition max (l : list Z) : result Z :=
  match l with
  | [] => Raise ValueError
  | x :: xs => Ok (foldl Z.max x xs)
  end.

End Py.

(** ** numpy arrays *)

Record ndarray : Type := mk_ndarray {
  shape : nat * nat;
  rows : list (list Q)
}.

(** The entries agree with the declared shape. *)
Definition wf_ndarray (a : ndarray) : Prop :=
  length (rows a) = (shape a).1 ∧ Forall (λ r, length r = (shape a).2) (rows a).

Module np.

(** [a.shape[-1]] / [a.shape[0]] *)
Definition shape_last (a : ndarray) : nat := (shape a).2.
Definition shape_first (a : ndarray) : nat := (shape a).1.

(** [np.ones((r, c))] *)
Definition ones (s : nat * nat) : ndarray :=
  {| shape := s; rows := replicate s.1 (replicate s.2 1%Q) |}.

(** [a * k] for a scalar [k] *)
Definition scale (a : ndarray) (k : Q) : ndarray :=
  {| shape := shape a; rows := map (map (λ x, Qmult x k)) (rows a) |}.

(** [np.expand_dims(v, 0)] of a one-dimensional array *)
Definition expand_dims0 (v : list Q) : ndarray :=
  {| shape := (1%nat, length v); rows := [v] |}.

Definition sum_nat (l : list nat) : nat := foldr Nat.add 0%nat l.

(** [np.concatenate(arrs, axis=1)] of two-dimensional arrays: every array
    must have the row count of the first one, and an empty sequence is
    refused. *)
Definition concatenate1 (arrs : list ndarray) : result ndarray :=
  match arrs with
  | [] => Raise ValueError
  | a :: rest =>
      if forallb (λ b, Nat.eqb (shape b).1 (shape a).1) rest then
        Ok {| shape := ((shape a).1, sum_nat (map (λ b, (shape b).2) arrs));
              rows := map (λ i, concat (map (λ b, default [] (rows b !! i)) arrs))
                          (seq 0 (shape a).1) |}
      else Raise ValueError
  end.

(** [np.concatenate(arrs, axis=0)] *)
Definition concatenate0 (arrs : list ndarray) : result ndarray :=
  match arrs with
  | [] => Raise ValueError
  | a :: rest =>
      if forallb (λ b, Nat.eqb (shape b).2 (shape a).2) rest then
        Ok {| shape := (sum_nat (map (λ b, (shape b).1) arrs), (shape a).2);
              rows := concat (map rows arrs) |}
      else Raise ValueError
  end.

(** On two-dimensional arrays [np.hstack] concatenates along axis 1 and
    [np.vstack] along axis 0; [axis=-1] is axis 1. *)
Definition hstack := concatenate1.
Definition vstack := concatenate0.
Definition concatenate_last := concatenate1.

End np.

(** ** History padder *)

Definition minus_one : Q := (-1) # 1.

(** [SklearnPolicy._fill_in_features] *)
Definition _fill_in_features (state_features : list ndarray) (max_length : Z)
    : result (list ndarray) :=
  if bool_decide (Py.len state_features = max_length) then
    Ok state_features
  else
    first ← Py.getitem state_features 0;
    let shape_of_input := np.shape_last first in
    Ok (Py.repeat (np.scale (np.ones (1%nat, shape_of_input)) minus_one)
                  (max_length - Py.len state_features)
        ++ state_features).

(** The sentinel turn of width [w]: one row of [w] entries, all [-1]. *)
Definition sentinel (w : nat) : ndarray :=
  {| shape := (1%nat, w); rows := [replicate w minus_one] |}.

(** A per-turn feature vector is an array with a single row. *)
Definition turn_vector (a : ndarray) : Prop := (shape a).1 = 1%nat.

(** Every entry of the array is [q]. *)
Definition filled_with (q : Q) (a : ndarray) : Prop :=
  Forall (Forall (λ x, x = q)) (rows a).


(** ** Dialogue histories

    A row of the raw feature matrix [X] is itself a matrix with one line per
    turn; the policy reads its columns 2 (intent), 6 (previous action) and 8
    (slots).  The intent and previous-action cells are two-dimensional; the
    slot cells are one-dimensional and get their leading axis from
    [np.expand_dims(slots, 0)]. *)

Record turn : Type := {
  intent : ndarray;
  previous_action : ndarray;
  slots : list Q
}.

Definition history : Type := list turn.

Record Domain : Type := { num_actions : nat }.

(** ** Label codec (sklearn's LabelEncoder on integer action labels) *)

Record LabelEncoder : Type := { classes_ : option (list Z) }.

Module Encoder.

(** [LabelEncoder()] and [clone(encoder)]: no fitted classes. *)
Definition new : LabelEncoder := {| classes_ := None |}.
Definition clone (_ : LabelEncoder) : LabelEncoder := new.

(** [np.unique]: the distinct labels in increasing order. *)
Definition unique (y : list Z) : list Z := merge_sort Z.le (remove_dups y).

Definition fit (_ : LabelEncoder) (y : list Z) : LabelEncoder :=
  {| classes_ := Some (unique y) |}.

Definition fitted (le : LabelEncoder) : result (list Z) :=
  match classes_ le with
  | Some cs => Ok cs
  | None => Raise NotFittedError
  end.

Fixpoint position (cs : list Z) (l : Z) : option nat :=
  match cs with
  | [] => None
  | c :: cs' => if bool_decide (c = l) then Some 0%nat else S <$> position cs' l
  end.

(** [encoder.transform(y)]: a label outside the fitted classes is refused. *)
Definition transform (le : LabelEncoder) (y : list Z) : result (list Z) :=
  cs ← fitted le;
  match mapM (position cs) y with
  | Some codes => Ok (Z.of_nat <$> codes)
  | None => Raise ValueError
  end.

(** [encoder.inverse_transform(codes)]: every code must be one of
    [0 .. len(classes_) - 1]. *)
Definition inverse_transform (le : LabelEncoder) (codes : list Z)
    : result (list Z) :=
  cs ← fitted le;
  match mapM (λ c, if bool_decide (0 ≤ c) then cs !! Z.to_nat c else None) codes with
  | Some ls => Ok ls
  | None => Raise ValueError
  end.

End Encoder.

(** [np.arange(n)] *)
Definition arange (n : nat) : list Z := Z.of_nat <$> seq 0 n.

(** ** Hyperparameters, scoring, persisted attributes *)

Inductive pyval : Type :=
  | PNone
  | PBool (b : bool)
  | PInt (z : Z)
  | PFloat (q : Q)
  | PStr (s : string).

(** [Dict[Text, List]] or [List[Dict]] *)
Inductive param_grid_t : Type :=
  | GridDict (g : gmap string (list pyval))
  | GridList (gs : list (gmap string (list pyval))).

Definition param_grid_bool (g : param_grid_t) : bool :=
  match g with
  | GridDict g => negb (bool_decide (g = ∅))
  | GridList gs => negb (bool_decide (gs = []))
  end.

Inductive scoring_t : Type :=
  | ScoringNone
  | ScoringName (name : string)
  | ScoringNames (names : list string).

Inductive event : Type :=
  | Warning (msg : string)
  | Info (msg : string)
  | InfoCrossValidationScore (score : Q)
  | PrintBestParams (best : gmap string pyval).

Definition path : Type := list string.

(** [os.path.join(path, name)] *)
Definition path_join (p : path) (name : string) : path := p ++ [name].

(** [GridSearchCV] after [fit]. *)
Record search (E : Type) : Type := {
  best_params_ : gmap string pyval;
  best_estimator_ : E;
  best_score_ : Q
}.
Arguments best_params_ {E} _.
Arguments best_estimator_ {E} _.
Arguments best_score_ {E} _.

Inductive attr_value (E F : Type) : Type :=
  | VModel (m : E)
  | VCv (c : option Z)
  | VParamGrid (g : option param_grid_t)
  | VScoring (s : scoring_t)
  | VLabelEncoder (l : LabelEncoder)
  | VFeaturizer (f : F)
  | VPriority (p : Z)
  | VShuffle (b : bool)
  | VTrainParams (kw : gmap string pyval).
Arguments VModel {E F} m.
Arguments VCv {E F} c.
Arguments VParamGrid {E F} g.
Arguments VScoring {E F} s.
Arguments VLabelEncoder {E F} l.
Arguments VFeaturizer {E F} f.
Arguments VPriority {E F} p.
Arguments VShuffle {E F} b.
Arguments VTrainParams {E F} kw.

(** What a path of the file system holds. *)
Inductive node (E F : Type) : Type :=
  | Directory
  | JsonFile (obj : gmap string Z)
  | PickleFile (state : list (string * attr_value E F))
  | FeaturizerFile (f : F).
Arguments Directory {E F}.
Arguments JsonFile {E F} obj.
Arguments PickleFile {E F} state.
Arguments FeaturizerFile {E F} f.

(** ** Collaborators

    The classifier is any object with sklearn's estimator protocol; the
    tracker featurizer, the [Policy] base class and the io helpers live in
    other modules of the package. *)

Class Estimator (E : Type) : Type := {
  (** [bool(model)] *)
  estimator_bool : E → bool;
  (** [LogisticRegression(solver="liblinear", multi_class="auto")] *)
  LogisticRegression : E;
  (** an estimator defines neither [__bool__] nor [__len__] *)
  LogisticRegression_bool : estimator_bool LogisticRegression = true;
  (** the argument names of [model.__init__] *)
  init_arguments : E → list string;
  set_params : E → gmap string pyval → result E;
  clone : E → E;
  fit : E → ndarray → list Z → result E;
  predict_proba : E → ndarray → result ndarray;
  (** [GridSearchCV(model, param_grid=.., cv=.., scoring=..).fit(X, y)] *)
  GridSearchCV_fit :
    E → param_grid_t → option Z → scoring_t → ndarray → list Z → result (search E)
}.

Class TrackerFeaturizer (F T I : Type) : Type := {
  isinstance_MaxHistoryTrackerFeaturizer : F → bool;
  max_history : F → option Z;
  (** [Policy._standard_featurizer()] *)
  _standard_featurizer : F;
  _standard_featurizer_kind :
    isinstance_MaxHistoryTrackerFeaturizer _standard_featurizer = true;
  create_X : F → list T → Domain → I → result (list history);
  (** [Policy.featurize_for_training] *)
  featurize_for_training :
    F → list T → Domain → I → gmap string pyval → result (list history * list Z);
  (** [featurizer.persist(path)] *)
  featurizer_persist :
    ∀ {E}, F → path → gmap path (node E F) → result (gmap path (node E F));
  (** [TrackerFeaturizer.load(path)], which may return [None] *)
  featurizer_load :
    ∀ {E}, path → gmap path (node E F) → result (option F)
}.

(** ** State and exceptions

    [M S A] is a computation that reads and updates a state [S] and either
    returns an [A] or raises; the state reached when the exception is raised
    is kept, as in Python. *)

Definition M (S A : Type) : Type := S → result A * S.

#[global] Instance M_ret {S} : MRet (M S) := λ _ a s, (Ok a, s).
#[global] Instance M_bind {S} : MBind (M S) := λ _ _ f m s,
  match m s with
  | (Ok a, s') => f a s'
  | (Raise e, s') => (Raise e, s')
  end.

Definition raise {S A} (e : exception) : M S A := λ s, (Raise e, s).
Definition lift {S A} (r : result A) : M S A := λ s, (r, s).
Definition get {S} : M S S := λ s, (Ok s, s).
Definition modify {S} (f : S → S) : M S unit := λ s, (Ok (), f s).

(** ** The policy *)

Section Policy.

Context {E F T I : Type} `{!Estimator E} `{!TrackerFeaturizer F T I}.

(** [rasa.core.constants.DEFAULT_POLICY_PRIORITY] *)
Variable DEFAULT_POLICY_PRIORITY : Z.

(** [sklearn.utils.shuffle(X, y)] *)
Variable sklearn_shuffle : list history → list Z → list history * list Z.

(** [Policy._get_valid_params(model.__init__, **kwargs)] *)
Variable _get_valid_params : E → gmap string pyval → gmap string pyval.

Record world : Type := {
  files : gmap path (node E F);
  events : list event
}.

Definition set_files (fs : gmap path (node E F)) (w : world) : world :=
  {| files := fs; events := events w |}.

Definition emit (ev : event) : M world unit :=
  modify (λ w, {| files := files w; events := events w ++ [ev] |}).

(** [rasa.utils.common.raise_warning] / [logger.info] *)
Definition raise_warning (msg : string) : M world unit := emit (Warning msg).
Definition logger_info (msg : string) : M world unit := emit (Info msg).

(** [os.path.exists] *)
Definition os_path_exists (p : path) : M world bool :=
  λ w, (Ok (bool_decide (is_Some (files w !! p))), w).

(** [os.path.dirname] *)
Definition dirname (p : path) : path := take (length p - 1) p.

(** [open(filename, "w")] followed by a write: the directory of the file
    has to exist, and the file itself must not be a directory. *)
Definition write_file (filename : path) (content : node E F) : M world unit :=
  λ w,
    match files w !! dirname filename, files w !! filename with
    | Some Directory, Some Directory => (Raise OSError, w)
    | Some Directory, _ => (Ok (), set_files (<[filename := content]> (files w)) w)
    | _, _ => (Raise OSError, w)
    end.

(** [rasa.utils.io.dump_obj_as_json_to_file] *)
Definition dump_obj_as_json_to_file (filename : path) (obj : gmap string Z)
    : M world unit :=
  write_file filename (JsonFile obj).

(** [rasa.utils.io.pickle_dump] *)
Definition pickle_dump (filename : path) (obj : list (string * attr_value E F))
    : M world unit :=
  write_file filename (PickleFile obj).

(** [json.loads(rasa.utils.io.read_file(filename))]: [read_file] turns the
    FileNotFoundError of a missing file into a ValueError, any other error
    of [open] is left as it is, and text that is not JSON makes [json.loads]
    raise a ValueError. *)
Definition read_json (filename : path) : M world (gmap string Z) :=
  λ w,
    match files w !! filename with
    | Some (JsonFile obj) => (Ok obj, w)
    | Some Directory => (Raise OSError, w)
    | None => (Raise ValueError, w)
    | Some _ => (Raise ValueError, w)
    end.

(** [rasa.utils.io.pickle_load] *)
Definition pickle_load (filename : path)
    : M world (list (string * attr_value E F)) :=
  λ w,
    match files w !! filename with
    | Some (PickleFile state) => (Ok state, w)
    | Some Directory | None => (Raise OSError, w)
    | Some _ => (Raise ValueError, w)
    end.

Record SklearnPolicy : Type := {
  featurizer : F;
  priority : Z;
  model : E;
  cv : option Z;
  param_grid : option param_grid_t;
  scoring : scoring_t;
  label_encoder : LabelEncoder;
  shuffle : bool;
  _train_params : gmap string pyval
}.

(** attributes that need to be restored after loading; [__init__] stores
    this literal in every instance and nothing reassigns it *)
Definition _pickle_params : list string :=
  ["model"; "cv"; "param_grid"; "scoring"; "label_encoder"]%string.

(** [SklearnPolicy._default_model] *)
Definition _default_model : E := LogisticRegression.

(** [Policy.__init__(featurizer, priority)] keeps the featurizer it is
    given and creates the standard one when it gets [None]. *)
Definition _create_featurizer (featurizer : option F) : F :=
  match featurizer with
  | Some f => f
  | None => _standard_featurizer
  end.

(** [SklearnPolicy.__init__] *)
Definition __init__ (featurizer : option F) (priority : Z) (model : option E)
    (param_grid : option param_grid_t) (cv : option Z) (scoring : scoring_t)
    (label_encoder : LabelEncoder) (shuffle : bool)
    (kwargs : gmap string pyval) : result SklearnPolicy :=
  _ ← match featurizer with
      | Some f =>
          if negb (isinstance_MaxHistoryTrackerFeaturizer f)
          then Raise TypeError else Ok ()
      | None => Ok ()
      end;
  Ok {| featurizer := _create_featurizer featurizer;
        priority := priority;
        model := match model with
                 | Some m => if estimator_bool m then m else _default_model
                 | None => _default_model
                 end;
        cv := cv;
        param_grid := param_grid;
        scoring := scoring;
        label_encoder := label_encoder;
        shuffle := shuffle;
        _train_params := kwargs |}.

(** [cls(featurizer=featurizer, priority=priority)]: every other argument
    takes its default. *)
Definition new_policy (featurizer : option F) (priority : Z)
    : result SklearnPolicy :=
  __init__ featurizer priority None None None (ScoringName "accuracy")
           Encoder.new true ∅.

(** [SklearnPolicy()] *)
Definition default_policy : result SklearnPolicy :=
  new_policy None DEFAULT_POLICY_PRIORITY.

(** [getattr(self, attr)] *)
Definition getattr (self : SklearnPolicy) (attr : string)
    : option (attr_value E F) :=
  if String.eqb attr "model" then Some (VModel (model self))
  else if String.eqb attr "cv" then Some (VCv (cv self))
  else if String.eqb attr "param_grid" then Some (VParamGrid (param_grid self))
  else if String.eqb attr "scoring" then Some (VScoring (scoring self))
  else if String.eqb attr "label_encoder" then Some (VLabelEncoder (label_encoder self))
  else if String.eqb attr "featurizer" then Some (VFeaturizer (featurizer self))
  else if String.eqb attr "priority" then Some (VPriority (priority self))
  else if String.eqb attr "shuffle" then Some (VShuffle (shuffle self))
  else if String.eqb attr "_train_params" then Some (VTrainParams (_train_params self))
  else None.

(** One entry of [vars(policy).update(state)].  The record is typed, so an
    entry whose value does not have the kind of the attribute it names has
    no counterpart here and is skipped; [persist] never writes one. *)
Definition setattr (self : SklearnPolicy) (attr : string)
    (v : attr_value E F) : SklearnPolicy :=
  let '(Build_SklearnPolicy fz pr mo c pg sc le sh tp) := self in
  match v with
  | VModel m =>
      if String.eqb attr "model" then Build_SklearnPolicy fz pr m c pg sc le sh tp else self
  | VCv c' =>
      if String.eqb attr "cv" then Build_SklearnPolicy fz pr mo c' pg sc le sh tp else self
  | VParamGrid pg' =>
      if String.eqb attr "param_grid" then Build_SklearnPolicy fz pr mo c pg' sc le sh tp else self
  | VScoring sc' =>
      if String.eqb attr "scoring" then Build_SklearnPolicy fz pr mo c pg sc' le sh tp else self
  | VLabelEncoder le' =>
      if String.eqb attr "label_encoder" then Build_SklearnPolicy fz pr mo c pg sc le' sh tp else self
  | VFeaturizer fz' =>
      if String.eqb attr "featurizer" then Build_SklearnPolicy fz' pr mo c pg sc le sh tp else self
  | VPriority pr' =>
      if String.eqb attr "priority" then Build_SklearnPolicy fz pr' mo c pg sc le sh tp else self
  | VShuffle sh' =>
      if String.eqb attr "shuffle" then Build_SklearnPolicy fz pr mo c pg sc le sh' tp else self
  | VTrainParams tp' =>
      if String.eqb attr "_train_params" then Build_SklearnPolicy fz pr mo c pg sc le sh tp' else self
  end.

(** [SklearnPolicy._state]:
    [{attr: getattr(self, attr) for attr in self._pickle_params}] *)
Definition _state (self : SklearnPolicy) : list (string * attr_value E F) :=
  omap (λ attr, (λ v, (attr, v)) <$> getattr self attr) _pickle_params.

(** [vars(policy).update(state)] *)
Definition vars_update (policy : SklearnPolicy)
    (state : list (string * attr_value E F)) : SklearnPolicy :=
  foldl (λ p kv, setattr p kv.1 kv.2) policy state.

(** [SklearnPolicy._get_max_dialogue_length] *)
Definition _get_max_dialogue_length (X : list history) : result Z :=
  let lengths := map (λ row : history, Py.len row) X in
  Py.max lengths.

(** [self.featurizer.max_history or self._get_max_dialogue_length(X)]:
    [None] and [0] are both false, and the right operand is evaluated only
    then. *)
Definition max_dialogue_length (self : SklearnPolicy) (X : list history)
    : result Z :=
  match max_history (featurizer self) with
  | Some m => if bool_decide (m = 0) then _get_max_dialogue_length X else Ok m
  | None => _get_max_dialogue_length X
  end.

(** The body of the loop of [_collect_features] for one [row]. *)
Definition collect_row (max_dialogue_length : Z)
    (acc : list ndarray * list ndarray * list ndarray) (row : history)
    : result (list ndarray * list ndarray * list ndarray) :=
  let '(X_intent, X_previous_action, X_slots) := acc in
  let state_intent := map intent row in
  state_intent ← _fill_in_features state_intent max_dialogue_length;
  state_intent ← np.hstack state_intent;
  let X_intent := X_intent ++ [state_intent] in
  let state_previous_action := map previous_action row in
  state_previous_action ←
    _fill_in_features state_previous_action max_dialogue_length;
  state_previous_action ← np.hstack state_previous_action;
  let X_previous_action := X_previous_action ++ [state_previous_action] in
  let state_slots := map (λ t, np.expand_dims0 (slots t)) row in
  state_slots ← _fill_in_features state_slots max_dialogue_length;
  state_slots ← np.hstack state_slots;
  let X_slots := X_slots ++ [state_slots] in
  Ok (X_intent, X_previous_action, X_slots).

(** [SklearnPolicy._collect_features] *)
Definition _collect_features (self : SklearnPolicy) (X : list history)
    : result (ndarray * ndarray * ndarray) :=
  max_dialogue_length ← max_dialogue_length self X;
  acc ← for_each (collect_row max_dialogue_length) X ([], [], []);
  let '(X_intent, X_previous_action, X_slots) := acc in
  X_intent ← np.vstack X_intent;
  X_previous_action ← np.vstack X_previous_action;
  X_slots ← np.vstack X_slots;
  Ok (X_intent, X_previous_action, X_slots).

(** [SklearnPolicy._preprocess_data] *)
Definition _preprocess_data (self : SklearnPolicy) (X : list history)
    : result ndarray :=
  feats ← _collect_features self X;
  let '(X_intent, X_previous_action, X_slots) := feats in
  np.concatenate_last [X_intent; X_previous_action; X_slots].

(** [SklearnPolicy._postprocess_prediction] *)
Definition _postprocess_prediction (self : SklearnPolicy) (y_proba : ndarray)
    (domain : Domain) : result (list Q) :=
  yp ← Py.getitem (rows y_proba) 0;
  indices ← Encoder.inverse_transform (label_encoder self) (arange (length yp));
  let y_filled := replicate (num_actions domain) 0%Q in
  for_each (λ y_filled ip, Py.setitem y_filled ip.1 ip.2) (zip indices yp) y_filled.

(** [SklearnPolicy.predict_action_probabilities] *)
Definition predict_action_probabilities (self : SklearnPolicy) (tracker : T)
    (domain : Domain) (interpreter : I) : result (list Q) :=
  X ← create_X (featurizer self) [tracker] domain interpreter;
  Xt ← _preprocess_data self X;
  y_proba ← predict_proba (model self) Xt;
  _postprocess_prediction self y_proba domain.

(** *** Persistence *)

(** A call that reads and rewrites the files only. *)
Definition on_files
    (f : gmap path (node E F) → result (gmap path (node E F))) : M world unit :=
  λ w,
    match f (files w) with
    | Ok fs => (Ok (), set_files fs w)
    | Raise e => (Raise e, w)
    end.

(** [SklearnPolicy.persist] *)
Definition persist (self : SklearnPolicy) (p : path) : M world unit :=
  if estimator_bool (model self) then
    on_files (featurizer_persist (featurizer self) p);;
    let meta : gmap string Z := {[ "priority"%string := priority self ]} in
    let meta_file := path_join p "sklearn_policy.json" in
    dump_obj_as_json_to_file meta_file meta;;
    let filename := path_join p "sklearn_model.pkl" in
    pickle_dump filename (_state self)
  else
    raise_warning
      "Persist called without a trained model present. Nothing to persist then!".

(** [SklearnPolicy.load] *)
Definition load (p : path) : M world SklearnPolicy :=
  let filename := path_join p "sklearn_model.pkl" in
  there ← os_path_exists p;
  if negb there then raise OSError
  else
    featurizer ← (λ w, (featurizer_load p (files w), w));
    _ ← match featurizer with
        | Some f =>
            if isinstance_MaxHistoryTrackerFeaturizer f then mret ()
            else raise AssertionError
        | None => raise AssertionError
        end;
    let meta_file := path_join p "sklearn_policy.json" in
    meta ← read_json meta_file;
    priority ← match meta !! "priority"%string with
               | Some pr => mret pr
               | None => raise KeyError
               end;
    policy ← lift (new_policy featurizer priority);
    state ← pickle_load filename;
    let policy := vars_update policy state in
    logger_info "Loaded sklearn model";;
    mret policy.

(** *** Training

    [train] updates the policy object it is called on, so its state is the
    pair of that object and the world. *)

Definition self_ : M (SklearnPolicy * world) SklearnPolicy := λ s, (Ok s.1, s).

Definition update_self (f : SklearnPolicy → SklearnPolicy)
    : M (SklearnPolicy * world) unit :=
  modify (λ s, (f s.1, s.2)).

Definition in_world {A} (m : M world A) : M (SklearnPolicy * world) A :=
  λ s, let '(r, w) := m s.2 in (r, (s.1, w)).

Definition set_model (m : E) (self : SklearnPolicy) : SklearnPolicy :=
  setattr self "model" (VModel m).
Definition set_label_encoder (le : LabelEncoder) (self : SklearnPolicy)
    : SklearnPolicy :=
  setattr self "label_encoder" (VLabelEncoder le).
Definition set_train_params (kw : gmap string pyval) (self : SklearnPolicy)
    : SklearnPolicy :=
  setattr self "_train_params" (VTrainParams kw).

(** [SklearnPolicy.model_architecture]: [set_params] changes [self.model]
    in place and returns it. *)
Definition model_architecture (kwargs : gmap string pyval)
    : M (SklearnPolicy * world) E :=
  self ← self_;
  let train_params := _get_valid_params (model self) kwargs in
  m ← lift (set_params (model self) train_params);
  update_self (set_model m);;
  mret m.

(** [SklearnPolicy._search_and_score] *)
Definition _search_and_score (model : E) (X : ndarray) (y : list Z)
    (param_grid : param_grid_t) : M (SklearnPolicy * world) (E * Q) :=
  self ← self_;
  search ← lift (GridSearchCV_fit model param_grid (cv self)
                                  (ScoringName "accuracy") X y);
  in_world (emit (PrintBestParams (best_params_ search)));;
  mret (best_estimator_ search, best_score_ search).

(** [self.param_grid or {}] *)
Definition param_grid_or_empty (self : SklearnPolicy) : param_grid_t :=
  match param_grid self with
  | Some g => if param_grid_bool g then g else GridDict ∅
  | None => GridDict ∅
  end.

(** [SklearnPolicy.train] *)
Definition train (training_trackers : list T) (domain : Domain)
    (interpreter : I) (kwargs : gmap string pyval)
    : M (SklearnPolicy * world) unit :=
  self ← self_;
  '(X, y) ← lift (featurize_for_training (featurizer self) training_trackers
                                         domain interpreter kwargs);
  let '(X, y) := if shuffle self then sklearn_shuffle X y else (X, y) in
  update_self (set_train_params (kwargs ∪ _train_params self));;
  self ← self_;
  model ← model_architecture (_train_params self);
  self ← self_;
  update_self
    (set_label_encoder (Encoder.fit (Encoder.clone (label_encoder self)) y));;
  self ← self_;
  Xt ← lift (_preprocess_data self X);
  yt ← lift (Encoder.transform (label_encoder self) y);
  '(model, score) ←
    match cv self with
    | None =>
        model ← lift (fit (clone model) Xt yt);
        mret (model, None)
    | Some _ =>
        let param_grid := param_grid_or_empty self in
        '(model, score) ← _search_and_score model Xt yt param_grid;
        mret (model, Some score)
    end;
  update_self (set_model model);;
  in_world (logger_info "Done fitting sklearn policy model");;
  match score with
  | Some score => in_world (emit (InfoCrossValidationScore score))
  | None => mret ()
  end.

End Policy.

Arguments world E F : clear implicits.
Arguments SklearnPolicy E F : clear implicits.

(** The files the policy itself writes under [p]. *)
Definition policy_files {E F : Type} (self : SklearnPolicy E F) (p : path)
    (fs : gmap path (node E F)) : gmap path (node E F) :=
  <[path_join p "sklearn_model.pkl" := PickleFile (_state self)]>
    (<[path_join p "sklearn_policy.json" :=
         JsonFile {[ "priority"%string := priority self ]}]> fs).

(** A policy as [load] rebuilds it from what [persist] wrote for [self]. *)
Definition reloaded {E F : Type} (self : SklearnPolicy E F) : SklearnPolicy E F :=
  {| featurizer := featurizer self;
     priority := priority self;
     model := model self;
     cv := cv self;
     param_grid := param_grid self;
     scoring := scoring self;
     label_encoder := label_encoder self;
     shuffle := true;
     _train_params := ∅ |}.

(** The featurizer's side of persistence, as the policy relies on it:
    [persist] leaves the directory in place, and [load] gives the featurizer
    back from any file system that differs from the one [persist] left only
    in the policy's own two files. *)
Definition featurizer_roundtrip (E : Type) {F T I : Type}
    `{!TrackerFeaturizer F T I} : Prop :=
  ∀ (f : F) (p : path) (fs fs' : gmap path (node E F)),
    featurizer_persist f p fs = Ok fs' →
    fs' !! p = Some Directory ∧
    ∀ fs'' : gmap path (node E F),
      (∀ q, q ≠ path_join p "sklearn_policy.json" →
            q ≠ path_join p "sklearn_model.pkl" → fs'' !! q = fs' !! q) →
      featurizer_load p fs'' = Ok (Some f).

(** [sum(l)] *)
Definition sumQ (l : list Q) : Q := foldr Qplus 0%Q l.

(** The entries of [y_filled] at the action indices [labels], in that order. *)
Definition entries_at (y_filled : list Q) (labels : list Z) : list Q :=
  omap (λ l, y_filled !! Z.to_nat l) labels.

(** The loop [for i, pred in zip(indices, yp): y_filled[i] = pred] when no
    index is out of range. *)
Definition place (acc : list Q) (ips : list (Z * Q)) : list Q :=
  foldl (λ acc ip, <[Z.to_nat ip.1 := ip.2]> acc) acc ips.

(** The effective [max_length] in the words of the specification: the
    configured maximum history when present, otherwise the longest history of
    the batch. *)
Definition spec_max_length (configured : option Z) (X : list history) : result Z :=
  match configured with
  | Some m => Ok m
  | None => _get_max_dialogue_length X
  end.

(** A history whose turns all carry fields of width [W]. *)
Definition turn_of_width (W : nat) (t : turn) : Prop :=
  shape (intent t) = (1%nat, W) ∧ wf_ndarray (intent t) ∧
  shape (previous_action t) = (1%nat, W) ∧ wf_ndarray (previous_action t) ∧
  length (slots t) = W.

(** An array of shape [(r, c)] whose entries agree with it. *)
Definition has_shape (r c : nat) (a : ndarray) : Prop :=
  shape a = (r, c) ∧ wf_ndarray a.

(** [M] is the largest turn count of the batch. *)
Definition batch_max (X : list history) (M : Z) : Prop :=
  Forall (λ row : history, Py.len row ≤ M) X
  ∧ Exists (λ row : history, Py.len row = M) X.

(** ** Concrete collaborators

    A small classifier and featurizer on which the policy can be run: the
    classifier checks its input as sklearn's estimators do (one label per
    row and two classes to fit, enough samples for the folds of a search, the
    fitted number of features to predict), predicts the uniform distribution
    over the classes it was fit on and remembers the scoring a grid search
    selected it with; the
    featurizer reads a tracker as the history and next action it stands
    for, and keeps its state in [featurizer.json]. *)

Module Reference.

Record estimator : Type := {
  truthy : bool;
  n_classes : option nat;
  n_features : nat;
  selected_with : scoring_t
}.

Definition uniform (n k : nat) : ndarray :=
  {| shape := (n, k);
     rows := replicate n (replicate k (1 # Pos.of_nat k)) |}.

Definition fitted_on (e : estimator) (X : ndarray) (y : list Z) (s : scoring_t)
    : estimator :=
  {| truthy := truthy e;
     n_classes := Some (length (Encoder.unique y));
     n_features := (shape X).2;
     selected_with := s |}.

(** [fit] refuses a label list that does not have one label per row of [X],
    and labels of fewer than two classes. *)
Definition fit_checked (e : estimator) (X : ndarray) (y : list Z)
    (s : scoring_t) : result estimator :=
  if negb (Nat.eqb (shape X).1 (length y)) then Raise ValueError
  else if Nat.ltb (length (Encoder.unique y)) 2 then Raise ValueError
  else Ok (fitted_on e X y s).

Definition class_count (y : list Z) (c : Z) : nat :=
  length (filter (λ l, l = c) y).

(** A stratified split into [k] folds needs at least two folds, at least [k]
    samples, and a class with at least [k] members. *)
Definition splits_possible (k : nat) (y : list Z) : bool :=
  Nat.leb 2 k && Nat.leb k (length y)
  && existsb (λ c, Nat.leb k (class_count y c)) (Encoder.unique y).

#[global] Instance estimator_api : Estimator estimator := {|
  estimator_bool := truthy;
  LogisticRegression :=
    {| truthy := true; n_classes := None; n_features := 0;
       selected_with := ScoringNone |};
  LogisticRegression_bool := eq_refl;
  init_arguments := λ _, [];
  set_params := λ e _, Ok e;
  clone := λ e,
    {| truthy := truthy e; n_classes := None; n_features := 0;
       selected_with := selected_with e |};
  fit := λ e X y, fit_checked e X y (selected_with e);
  predict_proba := λ e X,
    match n_classes e with
    | Some k =>
        if Nat.eqb (shape X).2 (n_features e) then Ok (uniform (shape X).1 k)
        else Raise ValueError
    | None => Raise NotFittedError
    end;
  GridSearchCV_fit := λ e _ cv s X y,
    let k := match cv with Some k => Z.to_nat k | None => 5%nat end in
    if splits_possible k y then
      best ← fit_checked e X y s;
      Ok {| best_params_ := ∅; best_estimator_ := best; best_score_ := 1%Q |}
    else Raise ValueError
|}.

Record tracker_featurizer : Type := {
  window : option Z;
  is_max_history : bool
}.

Definition tracker : Type := history * Z.

#[global] Instance featurizer_api
    : TrackerFeaturizer tracker_featurizer tracker unit := {|
  isinstance_MaxHistoryTrackerFeaturizer := is_max_history;
  max_history := window;
  _standard_featurizer := {| window := None; is_max_history := true |};
  _standard_featurizer_kind := eq_refl;
  create_X := λ _ trackers _ _, Ok (map fst trackers);
  featurize_for_training := λ _ trackers _ _ _,
    Ok (map fst trackers, map snd trackers);
  featurizer_persist := λ E f p (fs : gmap path (node E tracker_featurizer)),
    Ok (<[path_join p "featurizer.json" := FeaturizerFile f]>
          (<[p := Directory]> fs));
  featurizer_load := λ E p (fs : gmap path (node E tracker_featurizer)),
    match fs !! path_join p "featurizer.json" with
    | Some (FeaturizerFile f) => Ok (Some f)
    | _ => Ok None
    end
|}.

Definition policy : Type := SklearnPolicy estimator tracker_featurizer.
Definition fs : Type := world estimator tracker_featurizer.

Definition empty_world : fs := {| files := ∅; events := [] |}.

(** [DEFAULT_POLICY_PRIORITY = 1] *)
Definition default_priority : Z := 1.

(** A turn whose three fields are the single entry [q]. *)
Definition turn1 (q : Q) : turn :=
  {| intent := {| shape := (1%nat, 1%nat); rows := [[q]] |};
     previous_action := {| shape := (1%nat, 1%nat); rows := [[q]] |};
     slots := [q] |}.

(** A policy after training on the labels [2; 0; 2]. *)
Definition trained : policy :=
  {| featurizer := {| window := None; is_max_history := true |};
     priority := 5;
     model := {| truthy := true; n_classes := Some 2%nat;
                 n_features := 3; selected_with := ScoringNone |};
     cv := None;
     param_grid := None;
     scoring := ScoringName "accuracy";
     label_encoder := Encoder.fit Encoder.new [2; 0; 2];
     shuffle := false;
     _train_params := {[ "C"%string := PInt 10 ]} |}.

(** The same policy under another priority. *)
Definition trained6 : policy := setattr trained "priority" (VPriority 6).

(** [SklearnPolicy()], never trained. *)
Definition fresh : policy :=
  {| featurizer := {| window := None; is_max_history := true |};
     priority := default_priority;
     model := LogisticRegression;
     cv := None;
     param_grid := None;
     scoring := ScoringName "accuracy";
     label_encoder := Encoder.new;
     shuffle := true;
     _train_params := ∅ |}.

(** [SklearnPolicy(cv=3, scoring="f1_macro")] *)
Definition searching : policy :=
  {| featurizer := {| window := None; is_max_history := true |};
     priority := default_priority;
     model := LogisticRegression;
     cv := Some 3;
     param_grid := None;
     scoring := ScoringName "f1_macro";
     label_encoder := Encoder.new;
     shuffle := true;
     _train_params := ∅ |}.

(** Six training trackers, three followed by action 2 and three by action 0,
    with histories of one or two turns. *)
Definition batch : list tracker :=
  [([turn1 1%Q; turn1 0%Q], 2); ([turn1 (1 # 2)], 0);
   ([turn1 1%Q], 2); ([turn1 0%Q; turn1 1%Q], 0);
   ([turn1 0%Q], 2); ([turn1 (1 # 2); turn1 0%Q], 0)].

(** A directory [models] whose featurizer is not a
    MaxHistoryTrackerFeaturizer. *)
Definition other_kind : fs :=
  {| files := {[ ["models"%string] := Directory;
                 ["models"; "featurizer.json"]%string :=
                   FeaturizerFile {| window := None; is_max_history := false |} ]};
     events := [] |}.

(** A policy whose featurizer has [max_history = n]. *)
Definition with_window (n : Z) : policy :=
  setattr trained "featurizer"
          (VFeaturizer {| window := Some n; is_max_history := true |}).

Definition no_shuffle (X : list history) (y : list Z) := (X, y).
Definition keep_params (_ : estimator) (kw : gmap string pyval) := kw.

End Reference.

(** The number of turns a history occupies after padding to [M]: the padder
    adds turns up to [M] and removes none. *)
Definition padded_length (M : Z) (row : history) : nat :=
  Z.to_nat (Z.max M (Py.len row)).


(** ** Command line entry point ([rasa/__main__.py]) *)

Module Cli.

(** [s.split(sep)] for a separator of one character: one part more than
    there are separators. *)
Fixpoint str_split (sep : ascii) (s : string) : list string :=
  match s with
  | EmptyString => [EmptyString]
  | String c rest =>
      if Ascii.eqb c sep then EmptyString :: str_split sep rest
      else match str_split sep rest with
           | part :: parts => String c part :: parts
           | [] => [String c EmptyString]
           end
  end.

(** [sep.join(parts)] *)
Fixpoint str_join (sep : ascii) (parts : list string) : string :=
  match parts with
  | [] => EmptyString
  | [part] => part
  | part :: parts' => part +:+ String sep (str_join sep parts')
  end.

Fixpoint count_char (c : ascii) (s : string) : nat :=
  match s with
  | EmptyString => 0
  | String c' rest => (if Ascii.eqb c' c then 1 else 0) + count_char c rest
  end.

Definition newline : ascii := "010"%char.

(** What the interpreter and the installed packages report. *)
Record environment : Type := {
  sys_version : string;
  sys_executable : string;
  platform_platform : string;
  rasa_version : string;
  rasa_sdk_version : string;
  (** [rasax.community.version.__version__], when the module is installed *)
  rasax_version : option string;
  os_getcwd : string
}.

Inductive cli_event : Type :=
  | SetLogLevel (level : option Z)
  | SetupTfEnvironment
  | ConfigureColoredLogging (level : option Z)
  | SetLogAndWarningsFilters
  | InitializeErrorReporting
  | CallFunc
  | Stdout (line : string)
  | LoggerError (msg : string)
  | LoggerDebug (msg : string)
  | PrintHelp
  | PrintError (msg : string).

Record process : Type := {
  sys_path : list string;
  trace : list cli_event
}.

Definition log_event (ev : cli_event) : M process unit :=
  modify (λ s, {| sys_path := sys_path s; trace := trace s ++ [ev] |}).

(** [f"{x}"] of an optional string *)
Definition format_optional (x : option string) : string :=
  match x with
  | Some s => s
  | None => "None"
  end.

(** [print_version] *)
Definition print_version (env : environment) : M process unit :=
  match str_split newline (sys_version env) with
  | [python_version; os_info] =>
      let rasa_x_info := rasax_version env in
      log_event (Stdout ("Rasa Version     : " +:+ rasa_version env));;
      log_event (Stdout ("Rasa SDK Version : " +:+ rasa_sdk_version env));;
      log_event (Stdout ("Rasa X Version   : " +:+ format_optional rasa_x_info));;
      log_event (Stdout ("Python Version   : " +:+ python_version));;
      log_event (Stdout ("Operating System : " +:+ platform_platform env));;
      log_event (Stdout ("Python Path      : " +:+ sys_executable env))
  | _ => raise ValueError
  end.

(** What calling [cmdline_arguments.func(cmdline_arguments)] does. *)
Inductive command : Type :=
  | Returns
  | RaisesRasaException (class_name message : string)
  | Raises (e : exception)
  | SysExit (code : Z).

(** The parsed arguments: an attribute that was not set is absent. *)
Record namespace : Type := {
  loglevel : option (option Z);
  func : option command;
  version : option bool
}.

(** How [main] ends. *)
Inductive termination : Type :=
  | Returned
  | Exited (code : Z)
  | Raised (e : exception).

(** [l.insert(i, x)]: an index past the end appends. *)
Definition list_insert {A} (i : nat) (x : A) (l : list A) : list A :=
  take i l ++ x :: drop i l.

(** [main], from the parsed arguments on. *)
Definition main (env : environment) (cmdline_arguments : namespace)
    (s : process) : termination * process :=
  let log_level :=
    match loglevel cmdline_arguments with
    | Some level => level
    | None => None
    end in
  let s := (log_event (SetLogLevel log_level) s).2 in
  let s := (log_event SetupTfEnvironment s).2 in
  let s := {| sys_path := list_insert 1 (os_getcwd env) (sys_path s);
              trace := trace s |} in
  match func cmdline_arguments with
  | Some f =>
      let s := (log_event (ConfigureColoredLogging log_level) s).2 in
      let s := (log_event SetLogAndWarningsFilters s).2 in
      let s := (log_event InitializeErrorReporting s).2 in
      let s := (log_event CallFunc s).2 in
      match f with
      | Returns => (Returned, s)
      | RaisesRasaException class_name message =>
          let s := (log_event (LoggerDebug "Failed to run CLI command due to an exception.") s).2 in
          let s := (log_event (PrintError (class_name +:+ ": " +:+ message)) s).2 in
          (Exited 1, s)
      | Raises e => (Raised e, s)
      | SysExit code => (Exited code, s)
      end
  | None =>
      match version cmdline_arguments with
      | Some _ =>
          match print_version env s with
          | (Ok _, s) => (Returned, s)
          | (Raise e, s) => (Raised e, s)
          end
      | None =>
          let s := (log_event (LoggerError "No command specified.") s).2 in
          let s := (log_event PrintHelp s).2 in
          (Exited 1, s)
      end
  end.

End Cli.


(** * Properties *)

(** ** History padder *)

Section Padder.

Implicit Types (sf : list ndarray) (m : Z).

Lemma ones_scaled w :
  np.scale (np.ones (1%nat, w)) minus_one = sentinel w.
Proof.
  unfold np.scale, np.ones, sentinel; simpl. do 2 f_equal.
  induction w as [|w IH]; simpl; [done|]. by rewrite IH.
Qed.

Lemma sentinel_filled w : filled_with minus_one (sentinel w).
Proof.
  unfold filled_with; simpl. constructor; [|constructor].
  apply Forall_forall. intros x Hx. by apply elem_of_replicate in Hx as [-> _].
Qed.

Lemma getitem_head {A} (x : A) (l : list A) : Py.getitem (x :: l) 0 = Ok x.
Proof.
  unfold Py.getitem, Py.index. rewrite bool_decide_eq_true_2; [done|].
  simpl. lia.
Qed.

Lemma getitem_nil {A} (i : Z) : Py.getitem (@nil A) i = Raise IndexError.
Proof.
  unfold Py.getitem, Py.index. simpl.
  rewrite !bool_decide_eq_false_2; [done| lia | lia].
Qed.

Lemma fill_same sf m : Py.len sf = m → _fill_in_features sf m = Ok sf.
Proof. intros H. unfold _fill_in_features. by rewrite bool_decide_eq_true_2. Qed.

Lemma fill_other x0 sf m :
  Py.len (x0 :: sf) ≠ m →
  _fill_in_features (x0 :: sf) m
  = Ok (replicate (Z.to_nat (m - Py.len (x0 :: sf))) (sentinel (shape x0).2)
        ++ x0 :: sf).
Proof.
  intros H. unfold _fill_in_features.
  rewrite bool_decide_eq_false_2 by done.
  rewrite getitem_head. simpl. unfold Py.repeat, np.shape_last.
  by rewrite ones_scaled.
Qed.

Lemma fill_longer x0 sf m :
  m ≤ Py.len (x0 :: sf) → _fill_in_features (x0 :: sf) m = Ok (x0 :: sf).
Proof.
  intros H. destruct (decide (Py.len (x0 :: sf) = m)) as [E|E].
  - by apply fill_same.
  - rewrite fill_other by done.
    replace (Z.to_nat (m - Py.len (x0 :: sf))) with 0%nat by lia. done.
Qed.

Lemma sentinel_wf w : wf_ndarray (sentinel w).
Proof.
  split; [done|]. simpl. constructor; [|constructor]. apply length_replicate.
Qed.

Lemma len_app {A} (l1 l2 : list A) : Py.len (l1 ++ l2) = Py.len l1 + Py.len l2.
Proof. unfold Py.len. rewrite length_app. lia. Qed.

(** The list returned for a non-empty input always has the form
    [pad ++ input] with [pad] made of sentinels of the first width. *)
Lemma fill_shape x0 sf m :
  ∃ k, _fill_in_features (x0 :: sf) m
       = Ok (replicate k (sentinel (shape x0).2) ++ x0 :: sf)
       ∧ Z.of_nat k = Z.max 0 (m - Py.len (x0 :: sf)).
Proof.
  destruct (decide (Py.len (x0 :: sf) = m)) as [E|E].
  - exists 0%nat. rewrite fill_same by done. split; [done|lia].
  - exists (Z.to_nat (m - Py.len (x0 :: sf))).
    rewrite fill_other by done. split; [done|lia].
Qed.

End Padder.

(** C3. A non-empty list of per-turn vectors shorter than [max_length] comes
    back with [max_length - len] sentinel vectors in front, each with the
    shape of the first real vector and filled with -1, the real turns
    following in their order, [max_length] vectors in all; a list that has
    [max_length] entries or more comes back as it is. *)
Theorem fill_in_features_pads (state_features : list ndarray) (max_length : Z)
    (first : ndarray) :
  state_features !! 0%nat = Some first →
  turn_vector first →
  (Py.len state_features < max_length →
     ∃ pad,
       _fill_in_features state_features max_length = Ok (pad ++ state_features)
       ∧ Py.len pad = max_length - Py.len state_features
       ∧ Py.len (pad ++ state_features) = max_length
       ∧ Forall (λ s, shape s = shape first ∧ filled_with minus_one s
                      ∧ wf_ndarray s) pad)
  ∧ (max_length ≤ Py.len state_features →
     _fill_in_features state_features max_length = Ok state_features).
Proof.
  intros Hfirst Hrow.
  destruct state_features as [|x0 sf]; [done|].
  simpl in Hfirst. injection Hfirst as ->. split.
  - intros Hlt.
    exists (replicate (Z.to_nat (max_length - Py.len (first :: sf)))
                      (sentinel (shape first).2)).
    split; [apply fill_other; lia|].
    split; [unfold Py.len at 1; rewrite length_replicate; lia|].
    split; [rewrite len_app; unfold Py.len at 1; rewrite length_replicate; lia|].
    apply Forall_forall. intros s Hs. apply elem_of_replicate in Hs as [-> _].
    split; [|split; [apply sentinel_filled | apply sentinel_wf]].
    unfold turn_vector in Hrow. destruct (shape first) as [r c] eqn:Hs.
    simpl in *. by subst r.
  - apply fill_longer.
Qed.

Lemma fill_in_features_pads_witness :
  let x := {| shape := (1%nat, 2%nat); rows := [[0%Q; 1%Q]] |} in
  (∃ pad,
     _fill_in_features [x] 3 = Ok (pad ++ [x])
     ∧ Py.len pad = 3 - Py.len [x]
     ∧ Py.len (pad ++ [x]) = 3
     ∧ Forall (λ s, shape s = shape x ∧ filled_with minus_one s
                    ∧ wf_ndarray s) pad)
  ∧ _fill_in_features [x; x] 2 = Ok [x; x]
  ∧ _fill_in_features [x; x] 1 = Ok [x; x].
Proof.
  intros x. split; [|split].
  - apply (proj1 (fill_in_features_pads [x] 3 x eq_refl eq_refl)).
    unfold Py.len. simpl. lia.
  - apply (proj2 (fill_in_features_pads [x; x] 2 x eq_refl eq_refl)).
    unfold Py.len. simpl. lia.
  - apply (proj2 (fill_in_features_pads [x; x] 1 x eq_refl eq_refl)).
    unfold Py.len. simpl. lia.
Defined.

(** C4 (as stated, refuted). With [max_length = 0] the empty list has the
    requested length, so the padder returns it instead of failing. *)
Lemma fill_in_features_empty_zero :
  _fill_in_features [] 0 = Ok []
  ∧ ¬ (∀ max_length, ∃ e, _fill_in_features [] max_length = Raise e).
Proof.
  split; [reflexivity|]. intros H. destruct (H 0) as [e He]. discriminate He.
Qed.

(** C4 (amended). For every [max_length] other than 0 the padder fails on the
    empty list: reading the first vector raises IndexError. *)
Theorem fill_in_features_empty_raises (max_length : Z) :
  max_length ≠ 0 → raises (_fill_in_features [] max_length) IndexError.
Proof.
  intros H. unfold raises, _fill_in_features.
  rewrite bool_decide_eq_false_2 by (unfold Py.len; simpl; lia).
  by rewrite getitem_nil.
Qed.

Lemma fill_in_features_empty_raises_witness :
  raises (_fill_in_features [] 3) IndexError.
Proof. apply (fill_in_features_empty_raises 3). lia. Defined.

(** C9. Padding is idempotent: a non-empty list that already has
    [max_length] entries is returned unchanged, and for a non-empty list of at
    most [max_length] entries padding the padded list again changes nothing. *)
Theorem fill_in_features_idempotent (state_features : list ndarray)
    (max_length : Z) :
  state_features ≠ [] →
  (Py.len state_features = max_length →
     _fill_in_features state_features max_length = Ok state_features)
  ∧ (Py.len state_features ≤ max_length →
     ∃ padded,
       _fill_in_features state_features max_length = Ok padded
       ∧ _fill_in_features padded max_length = Ok padded
       ∧ (_fill_in_features state_features max_length
            ≫= λ once, _fill_in_features once max_length)
         = _fill_in_features state_features max_length).
Proof.
  intros Hne. split; [apply fill_same|].
  intros Hle. destruct state_features as [|x0 sf]; [done|].
  destruct (fill_shape x0 sf max_length) as (k & Hk & Hlen).
  exists (replicate k (sentinel (shape x0).2) ++ x0 :: sf).
  assert (_fill_in_features (replicate k (sentinel (shape x0).2) ++ x0 :: sf)
                            max_length
          = Ok (replicate k (sentinel (shape x0).2) ++ x0 :: sf)) as Hagain.
  { apply fill_same. rewrite len_app. unfold Py.len at 1.
    rewrite length_replicate. lia. }
  split; [done|]. split; [done|]. rewrite Hk. simpl. exact Hagain.
Qed.

Lemma fill_in_features_idempotent_witness :
  let x := {| shape := (1%nat, 2%nat); rows := [[0%Q; 1%Q]] |} in
  _fill_in_features [x; x; x] 3 = Ok [x; x; x]
  ∧ ∃ padded,
      _fill_in_features [x] 3 = Ok padded
      ∧ _fill_in_features padded 3 = Ok padded
      ∧ (_fill_in_features [x] 3 ≫= λ once, _fill_in_features once 3)
        = _fill_in_features [x] 3.
Proof.
  intros x. split.
  - apply (proj1 (fill_in_features_idempotent [x; x; x] 3 ltac:(discriminate))).
    reflexivity.
  - apply (proj2 (fill_in_features_idempotent [x] 3 ltac:(discriminate))).
    unfold Py.len. simpl. lia.
Defined.

(** ** Label codec and prediction reconciliation *)

Section Reconciler.

Lemma unique_elem_of (y : list Z) (l : Z) : l ∈ Encoder.unique y ↔ l ∈ y.
Proof.
  unfold Encoder.unique. rewrite merge_sort_Permutation.
  apply elem_of_remove_dups.
Qed.

Lemma unique_NoDup (y : list Z) : NoDup (Encoder.unique y).
Proof.
  unfold Encoder.unique. rewrite merge_sort_Permutation.
  apply NoDup_remove_dups.
Qed.

Lemma unique_sorted (y : list Z) : Sorted Z.le (Encoder.unique y).
Proof. apply Sorted_merge_sort. intros a b. lia. Qed.

Lemma inverse_transform_arange (le : LabelEncoder) (cs : list Z) :
  classes_ le = Some cs →
  Encoder.inverse_transform le (arange (length cs)) = Ok cs.
Proof.
  intros H. unfold Encoder.inverse_transform, Encoder.fitted. rewrite H. simpl.
  erewrite mapM_Some_2; [done|].
  apply Forall2_same_length_lookup_2.
  - unfold arange. by rewrite length_fmap, length_seq.
  - intros i x l Hx Hl. unfold arange in Hx. rewrite list_lookup_fmap in Hx.
    destruct (seq 0 (length cs) !! i) as [j|] eqn:Hs; [|done].
    simpl in Hx. injection Hx as <-.
    apply lookup_seq in Hs as [-> _].
    rewrite bool_decide_eq_true_2 by lia. by rewrite Nat2Z.id.
Qed.

Lemma place_length ips acc : length (place acc ips) = length acc.
Proof.
  revert acc. induction ips as [|ip ips IH]; intros acc; simpl; [done|].
  unfold place in *. simpl. by rewrite IH, length_insert.
Qed.

Lemma setitem_in_range {A} (l : list A) (i : Z) (x : A) :
  0 ≤ i < Z.of_nat (length l) → Py.setitem l i x = Ok (<[Z.to_nat i := x]> l).
Proof.
  intros H. unfold Py.setitem, Py.index. by rewrite bool_decide_eq_true_2.
Qed.

Lemma for_each_setitem (ips : list (Z * Q)) (acc : list Q) :
  Forall (λ ip, 0 ≤ ip.1 < Z.of_nat (length acc)) ips →
  for_each (λ y_filled ip, Py.setitem y_filled ip.1 ip.2) ips acc
  = Ok (place acc ips).
Proof.
  revert acc. induction ips as [|ip ips IH]; intros acc Hr; [done|].
  apply Forall_cons in Hr as [Hip Hr]. cbn [for_each].
  rewrite setitem_in_range by done.
  cbn [mbind result_bind]. rewrite IH; [done|]. by rewrite length_insert.
Qed.

Lemma place_other ips acc (a : nat) :
  Forall (λ ip, Z.to_nat ip.1 ≠ a) ips → place acc ips !! a = acc !! a.
Proof.
  revert acc. induction ips as [|ip ips IH]; intros acc Hr; [done|].
  apply Forall_cons in Hr as [Hip Hr]. unfold place in *. simpl.
  rewrite IH by done. by apply list_lookup_insert_ne.
Qed.

Lemma place_at ips acc (k : nat) (i : Z) (p : Q) :
  Forall (λ ip, 0 ≤ ip.1 < Z.of_nat (length acc)) ips →
  NoDup ips.*1 →
  ips !! k = Some (i, p) →
  place acc ips !! Z.to_nat i = Some p.
Proof.
  revert acc k. induction ips as [|ip ips IH]; intros acc k Hr Hnd Hk; [done|].
  apply Forall_cons in Hr as [Hip Hr].
  rewrite fmap_cons in Hnd. apply NoDup_cons in Hnd as [Hnotin Hnd].
  destruct k as [|k]; simpl in Hk.
  - injection Hk as ->. change (place acc ((i, p) :: ips))
      with (place (<[Z.to_nat i := p]> acc) ips).
    rewrite place_other.
    + apply list_lookup_insert_eq. simpl in Hip. lia.
    + apply Forall_forall. intros [j q] Hj Heq. simpl in *.
      rewrite Forall_forall in Hr. specialize (Hr _ Hj). simpl in Hr.
      assert (j = i) as -> by lia.
      apply Hnotin. apply list_elem_of_fmap. by exists (i, q).
  - change (place acc (ip :: ips)) with (place (<[Z.to_nat ip.1 := ip.2]> acc) ips).
    apply (IH _ k); [|done|done].
    by rewrite length_insert.
Qed.

Lemma omap_Forall2 {A B} (f : A → option B) (l : list A) (k : list B) :
  Forall2 (λ x y, f x = Some y) l k → omap f l = k.
Proof.
  induction 1 as [|x y l k Hxy _ IH]; [done|].
  change (omap f (x :: l)) with (match f x with Some z => z :: omap f l | None => omap f l end).
  by rewrite Hxy, IH.
Qed.

End Reconciler.

(** C1. For a policy whose label encoder was fit on training labels [y] that
    are action indices of the domain, and a model output with one
    probability per seen label, the reconciled vector has [num_actions]
    entries; the entry of every action that is not among the training labels
    is 0; the entry at the action a code decodes to is the probability the
    model gave that code; and the entries of the seen actions are the model's
    probabilities themselves, so they sum to the same mass. *)
Theorem postprocess_prediction_reconciles {E F : Type} (self : SklearnPolicy E F)
    (encoder : LabelEncoder) (y : list Z) (domain : Domain)
    (y_proba : ndarray) (yp : list Q) :
  label_encoder self = Encoder.fit encoder y →
  Forall (λ l, 0 ≤ l < Z.of_nat (num_actions domain)) y →
  rows y_proba !! 0%nat = Some yp →
  length yp = length (Encoder.unique y) →
  ∃ y_filled,
    _postprocess_prediction self y_proba domain = Ok y_filled
    ∧ length y_filled = num_actions domain
    ∧ (∀ a : nat, (a < num_actions domain)%nat → Z.of_nat a ∉ y →
         y_filled !! a = Some 0%Q)
    ∧ (∀ (code : nat) (l : Z), Encoder.unique y !! code = Some l →
         Encoder.inverse_transform (label_encoder self) [Z.of_nat code] = Ok [l]
         ∧ y_filled !! Z.to_nat l = yp !! code)
    ∧ entries_at y_filled (Encoder.unique y) = yp
    ∧ sumQ (entries_at y_filled (Encoder.unique y)) = sumQ yp.
Proof.
  intros Henc Hy Hrow Hlen.
  set (cs := Encoder.unique y) in *.
  assert (Forall (λ l, 0 ≤ l < Z.of_nat (num_actions domain)) cs) as Hcs.
  { apply Forall_forall. intros l Hl. apply (proj1 (unique_elem_of y l)) in Hl.
    rewrite Forall_forall in Hy. by apply Hy. }
  assert (classes_ (label_encoder self) = Some cs) as Hfit by (rewrite Henc; reflexivity).
  set (zeros := replicate (num_actions domain) 0%Q).
  assert (Forall (λ ip : Z * Q, 0 ≤ ip.1 < Z.of_nat (length zeros)) (zip cs yp)) as Hr.
  { unfold zeros. rewrite length_replicate. apply Forall_forall. intros [l p] Hlp.
    apply elem_of_zip_l in Hlp. rewrite Forall_forall in Hcs. by apply Hcs. }
  assert ((zip cs yp).*1 = cs) as Hfst by (apply fst_zip; lia).
  assert (∀ (code : nat) (l : Z), cs !! code = Some l →
            place zeros (zip cs yp) !! Z.to_nat l = yp !! code) as Hat.
  { intros code l Hl.
    destruct (lookup_lt_is_Some_2 yp code) as [p Hp].
    { rewrite Hlen. by eapply lookup_lt_Some. }
    rewrite Hp. apply (place_at _ _ code); [done| |].
    - rewrite Hfst. apply unique_NoDup.
    - apply lookup_zip_with_Some. by exists l, p. }
  exists (place zeros (zip cs yp)).
  split; [|split; [|split; [|split; [|split]]]].
  - unfold _postprocess_prediction.
    assert (Py.getitem (rows y_proba) 0 = Ok yp) as ->.
    { destruct (rows y_proba) as [|r rs]; [done|]. simpl in Hrow.
      injection Hrow as ->. apply getitem_head. }
    cbn [mbind result_bind]. rewrite Hlen.
    rewrite (inverse_transform_arange _ cs) by done.
    cbn [mbind result_bind]. by apply for_each_setitem.
  - rewrite place_length. apply length_replicate.
  - intros a Ha Hnot. rewrite place_other.
    + unfold zeros. by apply lookup_replicate_2.
    + apply Forall_forall. intros [l p] Hlp Heq. simpl in Heq.
      apply elem_of_zip_l in Hlp. apply Hnot.
      rewrite Forall_forall in Hcs. specialize (Hcs _ Hlp).
      apply (proj1 (unique_elem_of y _)). by replace (Z.of_nat a) with l by lia.
  - intros code l Hl. split; [|by apply Hat].
    unfold Encoder.inverse_transform, Encoder.fitted. rewrite Hfit.
    cbn. rewrite bool_decide_eq_true_2 by lia. rewrite Nat2Z.id, Hl. done.
  - apply omap_Forall2. apply Forall2_same_length_lookup_2; [done|].
    intros code l p Hl Hp. rewrite <- Hp. by apply Hat.
  - f_equal. apply omap_Forall2. apply Forall2_same_length_lookup_2; [done|].
    intros code l p Hl Hp. rewrite <- Hp. by apply Hat.
Qed.

Lemma postprocess_prediction_reconciles_witness :
  let self : Reference.policy :=
    {| featurizer := {| Reference.window := None; Reference.is_max_history := true |};
       priority := 1;
       model := LogisticRegression;
       cv := None;
       param_grid := None;
       scoring := ScoringName "accuracy";
       label_encoder := Encoder.fit Encoder.new [2; 0; 2];
       shuffle := true;
       _train_params := ∅ |} in
  let domain := {| num_actions := 4 |} in
  let yp := [1 # 4; 3 # 4]%Q in
  let y_proba := {| shape := (1%nat, 2%nat); rows := [yp] |} in
  ∃ y_filled,
    _postprocess_prediction self y_proba domain = Ok y_filled
    ∧ length y_filled = 4%nat
    ∧ (∀ a : nat, (a < 4)%nat → Z.of_nat a ∉ [2; 0; 2] →
         y_filled !! a = Some 0%Q)
    ∧ (∀ (code : nat) (l : Z), Encoder.unique [2; 0; 2] !! code = Some l →
         Encoder.inverse_transform (label_encoder self) [Z.of_nat code] = Ok [l]
         ∧ y_filled !! Z.to_nat l = yp !! code)
    ∧ entries_at y_filled (Encoder.unique [2; 0; 2]) = yp
    ∧ sumQ (entries_at y_filled (Encoder.unique [2; 0; 2])) = sumQ yp.
Proof.
  intros self domain yp y_proba.
  apply (postprocess_prediction_reconciles self Encoder.new [2; 0; 2] domain
           y_proba yp).
  - reflexivity.
  - repeat (constructor; [simpl; lia|]). constructor.
  - reflexivity.
  - reflexivity.
Defined.



(** ** Persistence *)

Section Persistence.

Context {E F T I : Type} `{!Estimator E} `{!TrackerFeaturizer F T I}.

Implicit Types (self : SklearnPolicy E F) (p : path) (w : world E F).

Lemma path_join_inj p (a b : string) : path_join p a = path_join p b → a = b.
Proof. unfold path_join. intros H. apply app_inv_head in H. congruence. Qed.

Lemma path_join_ne_self p (a : string) : path_join p a ≠ p.
Proof.
  unfold path_join. intros H. apply (f_equal length) in H.
  rewrite length_app in H. simpl in H. lia.
Qed.

Lemma dirname_join p (a : string) : dirname (path_join p a) = p.
Proof.
  unfold dirname, path_join. rewrite length_app. simpl.
  replace (length p + 1 - 1)%nat with (length p) by lia.
  by rewrite take_app_length.
Qed.

Lemma write_file_ok (filename : path) (content : node E F) w w' :
  write_file filename content w = (Ok (), w') →
  files w !! dirname filename = Some Directory
  ∧ w' = set_files (<[filename := content]> (files w)) w.
Proof.
  unfold write_file. intros H.
  destruct (files w !! dirname filename) as [[]|]; try discriminate H.
  split; [done|].
  destruct (files w !! filename) as [[]|]; try discriminate H; congruence.
Qed.

Lemma persist_ok self p w w' :
  estimator_bool (model self) = true →
  persist self p w = (Ok (), w') →
  ∃ fs, featurizer_persist (featurizer self) p (files w) = Ok fs
        ∧ files w' = policy_files self p fs
        ∧ events w' = events w.
Proof.
  intros Hm. unfold persist. rewrite Hm.
  unfold mbind, M_bind, on_files.
  destruct (featurizer_persist (featurizer self) p (files w)) as [fs|e] eqn:Hfs;
    [|discriminate].
  unfold dump_obj_as_json_to_file, pickle_dump.
  destruct (write_file (path_join p "sklearn_policy.json") _ _)
    as [[[]|e] w1] eqn:H1; [|discriminate].
  intros H2.
  apply write_file_ok in H1 as [_ ->]. apply write_file_ok in H2 as [_ ->].
  exists fs. done.
Qed.

Lemma vars_update_state (fresh self : SklearnPolicy E F) :
  vars_update fresh (_state self)
  = {| featurizer := featurizer fresh;
       priority := priority fresh;
       model := model self;
       cv := cv self;
       param_grid := param_grid self;
       scoring := scoring self;
       label_encoder := label_encoder self;
       shuffle := shuffle fresh;
       _train_params := _train_params fresh |}.
Proof. by destruct fresh. Qed.

Lemma new_policy_ok (f : F) (pr : Z) :
  isinstance_MaxHistoryTrackerFeaturizer f = true →
  new_policy (Some f) pr
  = Ok {| featurizer := f;
          priority := pr;
          model := _default_model;
          cv := None;
          param_grid := None;
          scoring := ScoringName "accuracy";
          label_encoder := Encoder.new;
          shuffle := true;
          _train_params := ∅ |}.
Proof. intros H. unfold new_policy, __init__. by rewrite H. Qed.

Lemma load_policy_files self p (fs : gmap path (node E F)) w :
  featurizer_roundtrip E →
  isinstance_MaxHistoryTrackerFeaturizer (featurizer self) = true →
  featurizer_persist (featurizer self) p (files w) = Ok fs →
  ∀ w', files w' = policy_files self p fs →
  load p w'
  = (Ok (reloaded self),
     {| files := files w'; events := events w' ++ [Info "Loaded sklearn model"] |}).
Proof.
  intros Hrt Hkind Hfs w' Hw'.
  destruct (Hrt _ _ _ _ Hfs) as [Hdir Hload].
  assert (files w' !! p = Some Directory) as Hp.
  { rewrite Hw'. unfold policy_files.
    rewrite !lookup_insert_ne by (apply path_join_ne_self). done. }
  assert (featurizer_load p (files w') = Ok (Some (featurizer self))) as Hfz.
  { apply Hload. intros q Hq1 Hq2. rewrite Hw'. unfold policy_files.
    by rewrite !lookup_insert_ne. }
  unfold load, mbind, M_bind, os_path_exists. rewrite Hp.
  rewrite bool_decide_eq_true_2 by eauto. cbn [negb]. rewrite Hfz, Hkind.
  unfold mret, M_ret, read_json.
  assert (files w' !! path_join p "sklearn_policy.json"
          = Some (JsonFile {[ "priority"%string := priority self ]})) as ->.
  { rewrite Hw'. unfold policy_files. rewrite lookup_insert_ne.
    - apply lookup_insert_eq.
    - intros Heq. apply path_join_inj in Heq. discriminate Heq. }
  rewrite lookup_singleton_eq. unfold lift. rewrite new_policy_ok by done.
  unfold pickle_load.
  assert (files w' !! path_join p "sklearn_model.pkl"
          = Some (PickleFile (_state self))) as ->.
  { rewrite Hw'. unfold policy_files. apply lookup_insert_eq. }
  rewrite vars_update_state. done.
Qed.

(** What [persist] wrote is enough for [load], and [load] rebuilds
    [reloaded self] from it. *)
Lemma load_persist self p w w' :
  featurizer_roundtrip E →
  isinstance_MaxHistoryTrackerFeaturizer (featurizer self) = true →
  estimator_bool (model self) = true →
  persist self p w = (Ok (), w') →
  ∃ w'', load p w' = (Ok (reloaded self), w'').
Proof.
  intros Hrt Hkind Hm Hp.
  destruct (persist_ok _ _ _ _ Hm Hp) as (fs & Hfs & Hfiles & _).
  eexists. by eapply load_policy_files.
Qed.

Lemma predict_reloaded self (tracker : T) (domain : Domain) (interpreter : I) :
  predict_action_probabilities (reloaded self) tracker domain interpreter
  = predict_action_probabilities self tracker domain interpreter.
Proof. reflexivity. Qed.




(** With a model present [persist] never takes the warning branch. *)
Lemma persist_model_present self p w :
  estimator_bool (model self) = true →
  persist self p w
  = (on_files (featurizer_persist (featurizer self) p);;
     dump_obj_as_json_to_file (path_join p "sklearn_policy.json")
                              {[ "priority"%string := priority self ]};;
     pickle_dump (path_join p "sklearn_model.pkl") (_state self)) w.
Proof. intros H. unfold persist. by rewrite H. Qed.

End Persistence.

Lemma Reference_roundtrip : featurizer_roundtrip Reference.estimator.
Proof.
  intros f p fs fs' H. cbn in H. injection H as <-. split.
  - rewrite lookup_insert_ne by apply path_join_ne_self. apply lookup_insert_eq.
  - intros fs'' Hsame. cbn. rewrite Hsame.
    + by rewrite lookup_insert_eq.
    + intros Heq. apply path_join_inj in Heq. discriminate Heq.
    + intros Heq. apply path_join_inj in Heq. discriminate Heq.
Qed.

(** C6. Loading what [persist] wrote for a policy with a trained model gives
    a policy that predicts, for every tracker and domain, exactly the
    action-probability vector the persisted policy predicts. *)
Theorem load_persist_same_prediction {E F T I : Type} `{!Estimator E}
    `{!TrackerFeaturizer F T I} (self : SklearnPolicy E F) (p : path)
    (w w' : world E F) (tracker : T) (domain : Domain) (interpreter : I) :
  featurizer_roundtrip E →
  isinstance_MaxHistoryTrackerFeaturizer (featurizer self) = true →
  estimator_bool (model self) = true →
  persist self p w = (Ok (), w') →
  ∃ loaded w'',
    load p w' = (Ok loaded, w'')
    ∧ predict_action_probabilities loaded tracker domain interpreter
      = predict_action_probabilities self tracker domain interpreter.
Proof.
  intros Hrt Hkind Hm Hp.
  destruct (load_persist self p w w' Hrt Hkind Hm Hp) as [w'' Hl].
  exists (reloaded self), w''. split; [done|]. apply predict_reloaded.
Qed.

Lemma load_persist_same_prediction_witness :
  let self := Reference.trained in
  let p := ["models"]%string in
  let w' := (persist self p Reference.empty_world).2 in
  let tracker : Reference.tracker := ([Reference.turn1 1%Q], 0) in
  let domain := {| num_actions := 4 |} in
  ∃ loaded w'',
    load p w' = (Ok loaded, w'')
    ∧ predict_action_probabilities loaded tracker domain ()
      = predict_action_probabilities self tracker domain ().
Proof.
  intros self p w' tracker domain.
  apply (load_persist_same_prediction self p Reference.empty_world w').
  - apply Reference_roundtrip.
  - reflexivity.
  - reflexivity.
  - vm_compute. reflexivity.
Defined.

(** C8. [load] raises OSError (the specification's PathNotFoundError) when
    the directory does not exist, and, the directory existing, raises
    AssertionError (its FeaturizerTypeMismatchError) when the featurizer
    that was read back is [None] or not a MaxHistoryTrackerFeaturizer; in both
    cases the exception reaches the caller and nothing was changed. *)
Theorem load_failures {E F T I : Type} `{!Estimator E}
    `{!TrackerFeaturizer F T I} (p : path) (w : world E F) :
  (files w !! p = None → load p w = (Raise OSError, w))
  ∧ (∀ loaded_featurizer : option F,
       is_Some (files w !! p) →
       featurizer_load p (files w) = Ok loaded_featurizer →
       (∀ f, loaded_featurizer = Some f →
             isinstance_MaxHistoryTrackerFeaturizer f = false) →
       load p w = (Raise AssertionError, w)).
Proof.
  split.
  - intros Hnone. unfold load, mbind, M_bind, os_path_exists. rewrite Hnone.
    rewrite bool_decide_eq_false_2; [done|]. by intros [x Hx].
  - intros fo Hsome Hfz Hkind. unfold load, mbind, M_bind, os_path_exists.
    rewrite bool_decide_eq_true_2 by done. cbn [negb]. rewrite Hfz.
    destruct fo as [f|]; [|done]. by rewrite (Hkind f eq_refl).
Qed.

Lemma load_failures_witness :
  load ["models"%string] Reference.empty_world
    = (Raise OSError, Reference.empty_world)
  ∧ load ["models"%string] Reference.other_kind
    = (Raise AssertionError, Reference.other_kind).
Proof.
  split.
  - apply (proj1 (load_failures ["models"%string] Reference.empty_world)).
    reflexivity.
  - apply (proj2 (load_failures ["models"%string] Reference.other_kind)
             (Some {| Reference.window := None; Reference.is_max_history := false |})).
    + eexists. vm_compute. reflexivity.
    + vm_compute. reflexivity.
    + intros f Hf. injection Hf as <-. reflexivity.
Defined.

(** C10 (as stated, refuted). The priority is a constructor argument outside
    the pickled state, yet it is not reset by [load]: two policies persisted
    with priorities 5 and 6 load back with priorities 5 and 6, so no
    construction default can be the priority of both. *)
Lemma load_keeps_priority :
  let p := ["models"%string] in
  ∃ loaded5 loaded6 w5 w6,
    load p (persist Reference.trained p Reference.empty_world).2
      = (Ok loaded5, w5)
    ∧ load p (persist Reference.trained6 p Reference.empty_world).2
      = (Ok loaded6, w6)
    ∧ priority loaded5 = 5 ∧ priority loaded6 = 6
    ∧ priority loaded5 ≠ Reference.default_priority
    ∧ ¬ ∃ default, priority loaded5 = default ∧ priority loaded6 = default.
Proof.
  intros p.
  destruct (load_persist Reference.trained p Reference.empty_world
              (persist Reference.trained p Reference.empty_world).2)
    as [w5 H5]; [apply Reference_roundtrip|done|done|by vm_compute|].
  destruct (load_persist Reference.trained6 p Reference.empty_world
              (persist Reference.trained6 p Reference.empty_world).2)
    as [w6 H6]; [apply Reference_roundtrip|done|done|by vm_compute|].
  exists (reloaded Reference.trained), (reloaded Reference.trained6), w5, w6.
  split; [done|]. split; [done|]. split; [done|]. split; [done|].
  split; [done|]. intros (d & Hd5 & Hd6). cbn in Hd5, Hd6. congruence.
Qed.

(** C10 (amended). Loading what [persist] wrote restores [model], [cv],
    [param_grid], [scoring] and [label_encoder] from the pickled state, the
    featurizer from the featurizer's own artifacts and the priority from the
    metadata record; the remaining constructor arguments, the shuffle flag
    and the extra training keywords, have their construction defaults
    ([True] and no keywords) whatever they were in the persisted policy. *)
Theorem load_restores {E F T I : Type} `{!Estimator E}
    `{!TrackerFeaturizer F T I} (self : SklearnPolicy E F) (p : path)
    (w w' : world E F) :
  featurizer_roundtrip E →
  isinstance_MaxHistoryTrackerFeaturizer (featurizer self) = true →
  estimator_bool (model self) = true →
  persist self p w = (Ok (), w') →
  ∃ loaded w'',
    load p w' = (Ok loaded, w'')
    ∧ _state loaded = _state self
    ∧ model loaded = model self
    ∧ cv loaded = cv self
    ∧ param_grid loaded = param_grid self
    ∧ scoring loaded = scoring self
    ∧ label_encoder loaded = label_encoder self
    ∧ featurizer loaded = featurizer self
    ∧ priority loaded = priority self
    ∧ shuffle loaded = true
    ∧ _train_params loaded = ∅.
Proof.
  intros Hrt Hkind Hm Hp.
  destruct (load_persist self p w w' Hrt Hkind Hm Hp) as [w'' Hl].
  exists (reloaded self), w''. by repeat split.
Qed.

Lemma load_restores_witness :
  let self := Reference.trained in
  let p := ["models"%string] in
  let w' := (persist self p Reference.empty_world).2 in
  shuffle self = false ∧ _train_params self ≠ ∅
  ∧ ∃ loaded w'',
      load p w' = (Ok loaded, w'')
      ∧ _state loaded = _state self
      ∧ model loaded = model self
      ∧ cv loaded = cv self
      ∧ param_grid loaded = param_grid self
      ∧ scoring loaded = scoring self
      ∧ label_encoder loaded = label_encoder self
      ∧ featurizer loaded = featurizer self
      ∧ priority loaded = priority self
      ∧ shuffle loaded = true
      ∧ _train_params loaded = ∅.
Proof.
  intros self p w'. split; [reflexivity|]. split; [by vm_compute|].
  apply (load_restores self p Reference.empty_world w').
  - apply Reference_roundtrip.
  - reflexivity.
  - reflexivity.
  - vm_compute. reflexivity.
Defined.

(** C2 (the code on a policy that was never trained). [SklearnPolicy()]
    holds an unfitted LogisticRegression, which counts as a model being
    present: [persist] writes the featurizer file, the metadata record and the
    pickled state, and emits no warning. *)
Theorem persist_untrained_writes :
  let p := ["models"%string] in
  let w' := (persist Reference.fresh p Reference.empty_world).2 in
  default_policy Reference.default_priority = Ok Reference.fresh
  ∧ Reference.n_classes (model Reference.fresh) = None
  ∧ persist Reference.fresh p Reference.empty_world = (Ok (), w')
  ∧ events w' = []
  ∧ files w' !! path_join p "featurizer.json"
    = Some (FeaturizerFile (featurizer Reference.fresh))
  ∧ files w' !! path_join p "sklearn_policy.json"
    = Some (JsonFile {[ "priority"%string := Reference.default_priority ]})
  ∧ files w' !! path_join p "sklearn_model.pkl"
    = Some (PickleFile (_state Reference.fresh)).
Proof. intros p w'. repeat split; vm_compute; reflexivity. Qed.

(** ** Training *)

Section Training.

Context {E F T I : Type} `{!Estimator E} `{!TrackerFeaturizer F T I}.

(** The search is scored by accuracy whatever [self.scoring] holds. *)
Lemma search_and_score_scoring (self : SklearnPolicy E F) (w : world E F)
    (model : E) (X : ndarray) (y : list Z) (param_grid : param_grid_t) :
  _search_and_score model X y param_grid (self, w)
  = match GridSearchCV_fit model param_grid (cv self)
                           (ScoringName "accuracy") X y with
    | Ok search =>
        (Ok (best_estimator_ search, best_score_ search),
         (self, {| files := files w;
                   events := events w ++ [PrintBestParams (best_params_ search)] |}))
    | Raise e => (Raise e, (self, w))
    end.
Proof.
  unfold _search_and_score, mbind, M_bind, self_, lift. cbn.
  by destruct (GridSearchCV_fit _ _ _ _ _ _).
Qed.

End Training.

(** The stand-in search refuses three folds on two samples, as sklearn's
    does. *)
Lemma reference_search_needs_samples (e : Reference.estimator)
    (grid : param_grid_t) (s : scoring_t) (X : ndarray) :
  GridSearchCV_fit e grid (Some 3) s X [1; 0] = Raise ValueError.
Proof. reflexivity. Qed.

(** C5 (the code with a scoring strategy other than accuracy). Trained with
    [cv=3] and [scoring="f1_macro"] on six histories, three for each of two
    actions, so that three stratified folds exist: the call the policy makes
    is a grid search scored by accuracy on the 6 x 6 feature matrix and the
    encoded labels, the policy ends up with the estimator that search
    selected and logs that search's score; its own scoring parameter, still
    "f1_macro" afterwards, is not used. *)
Theorem train_search_scored_by_accuracy :
  let domain := {| num_actions := 4 |} in
  ∃ (trained : Reference.policy) (w' : Reference.fs) (Xt : ndarray)
    (yt : list Z) (found : search Reference.estimator),
    train Reference.no_shuffle Reference.keep_params Reference.batch domain () ∅
          (Reference.searching, Reference.empty_world)
      = (Ok (), (trained, w'))
    ∧ cv Reference.searching = Some 3
    ∧ scoring Reference.searching = ScoringName "f1_macro"
    ∧ scoring trained = ScoringName "f1_macro"
    ∧ _preprocess_data Reference.searching (map fst Reference.batch) = Ok Xt
    ∧ shape Xt = (6%nat, 6%nat)
    ∧ yt = [1; 0; 1; 0; 1; 0]
    ∧ Reference.splits_possible 3 yt = true
    ∧ GridSearchCV_fit (model Reference.searching) (GridDict ∅) (Some 3)
                       (ScoringName "accuracy") Xt yt = Ok found
    ∧ model trained = best_estimator_ found
    ∧ Reference.selected_with (model trained) = ScoringName "accuracy"
    ∧ scoring trained ≠ ScoringName "accuracy"
    ∧ events w' = [PrintBestParams (best_params_ found);
                   Info "Done fitting sklearn policy model";
                   InfoCrossValidationScore (best_score_ found)].
Proof.
  intros domain.
  set (run := train Reference.no_shuffle Reference.keep_params Reference.batch
                    domain () ∅ (Reference.searching, Reference.empty_world)).
  destruct (_preprocess_data Reference.searching (map fst Reference.batch))
    as [Xt|e] eqn:HXt; [|by vm_compute in HXt].
  destruct (GridSearchCV_fit (model Reference.searching) (GridDict ∅) (Some 3)
              (ScoringName "accuracy") Xt [1; 0; 1; 0; 1; 0])
    as [found|e] eqn:Hfound.
  2:{ vm_compute in HXt. injection HXt as <-. by vm_compute in Hfound. }
  exists run.2.1, run.2.2, Xt, [1; 0; 1; 0; 1; 0], found.
  vm_compute in HXt. injection HXt as <-.
  vm_compute in Hfound. injection Hfound as <-.
  repeat split; try (vm_compute; reflexivity). discriminate.
Qed.

(** ** Feature assembler *)

Section Stacking.

Lemma sum_nat_const {A} (f : A → nat) (c : nat) (l : list A) :
  Forall (λ a, f a = c) l → np.sum_nat (map f l) = (length l * c)%nat.
Proof.
  induction 1 as [|a l Ha _ IH]; [done|]. simpl. rewrite Ha, IH. lia.
Qed.

Lemma length_concat_const {A} (c : nat) (ls : list (list A)) :
  Forall (λ l, length l = c) ls → length (concat ls) = (length ls * c)%nat.
Proof.
  induction 1 as [|l ls Hl _ IH]; [done|]. simpl.
  rewrite length_app, Hl, IH. lia.
Qed.

Lemma forallb_shape (f : ndarray → nat) (n : nat) (l : list ndarray) :
  Forall (λ a, f a = n) l → forallb (λ b, Nat.eqb (f b) n) l = true.
Proof.
  induction 1 as [|a l Ha _ IH]; [done|]. simpl.
  rewrite IH, Ha, Nat.eqb_refl. done.
Qed.

Lemma concatenate1_shape (arrs : list ndarray) (r c : nat) :
  arrs ≠ [] → Forall (has_shape r c) arrs →
  ∃ a, np.concatenate1 arrs = Ok a ∧ has_shape r (length arrs * c) a.
Proof.
  intros Hne Hall. destruct arrs as [|a0 rest]; [done|].
  assert (Forall (λ a, shape a = (r, c)) (a0 :: rest)) as Hshape.
  { eapply Forall_impl; [exact Hall|]. by intros a [? _]. }
  pose proof Hshape as Hshape'.
  apply Forall_cons in Hshape' as [H0 Hrest].
  unfold np.concatenate1. rewrite H0. cbn [fst snd].
  rewrite (forallb_shape (λ b, (shape b).1) r).
  2:{ eapply Forall_impl; [exact Hrest|]. by intros a ->. }
  eexists. split; [reflexivity|]. split; [|split]; cbn [shape rows fst snd].
  - f_equal. apply (sum_nat_const (λ b, (shape b).2)).
    eapply Forall_impl; [exact Hshape|]. by intros a ->.
  - by rewrite length_map, length_seq.
  - apply Forall_forall. intros row Hrow.
    apply list_elem_of_fmap in Hrow as (i & -> & Hi).
    apply elem_of_seq in Hi as [_ Hi]. simpl in Hi.
    rewrite (length_concat_const c).
    + rewrite length_map. f_equal.
      symmetry. apply (sum_nat_const (λ b, (shape b).2)).
      eapply Forall_impl; [exact Hshape|]. by intros a ->.
    + apply Forall_forall. intros l Hl.
      apply list_elem_of_fmap in Hl as (b & -> & Hb).
      rewrite Forall_forall in Hall. destruct (Hall b Hb) as [Hsb [Hlen Hrows]].
      rewrite Hsb in Hlen, Hrows. cbn [fst snd] in *.
      destruct (lookup_lt_is_Some_2 (rows b) i) as [rw Hrw]; [lia|].
      rewrite Hrw. simpl. rewrite Forall_forall in Hrows. apply Hrows.
      by eapply list_elem_of_lookup_2.
Qed.

Lemma concatenate0_shape (arrs : list ndarray) (r c : nat) :
  arrs ≠ [] → Forall (has_shape r c) arrs →
  ∃ a, np.concatenate0 arrs = Ok a ∧ has_shape (length arrs * r) c a.
Proof.
  intros Hne Hall. destruct arrs as [|a0 rest]; [done|].
  assert (Forall (λ a, shape a = (r, c)) (a0 :: rest)) as Hshape.
  { eapply Forall_impl; [exact Hall|]. by intros a [? _]. }
  pose proof Hshape as Hshape'.
  apply Forall_cons in Hshape' as [H0 Hrest].
  unfold np.concatenate0. rewrite H0. cbn [fst snd].
  rewrite (forallb_shape (λ b, (shape b).2) c).
  2:{ eapply Forall_impl; [exact Hrest|]. by intros a ->. }
  eexists. split; [reflexivity|].
  assert (np.sum_nat (map (λ b, (shape b).1) (a0 :: rest))
          = (length (a0 :: rest) * r)%nat) as Hsum.
  { apply (sum_nat_const (λ b, (shape b).1)).
    eapply Forall_impl; [exact Hshape|]. by intros a ->. }
  split; [|split]; cbn [shape rows fst snd].
  - by rewrite Hsum.
  - rewrite Hsum. clear Hsum H0 Hrest Hshape Hne.
    induction Hall as [|a l [Ha [Hlen _]] _ IH]; [done|].
    cbn [map concat length]. rewrite length_app, IH, Hlen, Ha. simpl. lia.
  - apply Forall_concat. apply Forall_fmap. eapply Forall_impl; [exact Hall|].
    intros a [Ha [_ Hrows]]. simpl. by rewrite Ha in Hrows.
Qed.

End Stacking.

Section Assembler.

Context {E F T I : Type} `{!Estimator E} `{!TrackerFeaturizer F T I}.

Lemma sentinel_has_shape W : has_shape 1 W (sentinel W).
Proof. split; [done|apply sentinel_wf]. Qed.

Lemma expand_dims0_has_shape (v : list Q) :
  has_shape 1 (length v) (np.expand_dims0 v).
Proof. split; [done|]. split; [done|]. simpl. by constructor. Qed.

(** Padding then stacking a field of one history gives a single row of
    [M * W] entries. *)
Lemma pad_and_stack (sf : list ndarray) (M : Z) (W : nat) :
  sf ≠ [] → Py.len sf ≤ M → Forall (has_shape 1 W) sf →
  ∃ padded a,
    _fill_in_features sf M = Ok padded
    ∧ np.hstack padded = Ok a
    ∧ has_shape 1 (Z.to_nat M * W) a.
Proof.
  intros Hne Hle Hall. destruct sf as [|x0 sf]; [done|].
  destruct (fill_shape x0 sf M) as (k & Hk & Hlen).
  pose proof Hall as Hall'. apply Forall_cons in Hall' as [[Hx0 _] _].
  rewrite Hx0 in Hk. cbn [snd] in Hk.
  set (padded := replicate k (sentinel W) ++ x0 :: sf) in *.
  assert (Forall (has_shape 1 W) padded) as Hpadded.
  { apply Forall_app. split; [|done].
    apply Forall_forall. intros s Hs. apply elem_of_replicate in Hs as [-> _].
    apply sentinel_has_shape. }
  assert (length padded = Z.to_nat M) as Hl.
  { unfold padded. rewrite length_app, length_replicate.
    unfold Py.len in *. lia. }
  destruct (concatenate1_shape padded 1 W) as (a & Ha & Hsa); [|done|].
  { unfold padded. by destruct (replicate k (sentinel W)). }
  exists padded, a. rewrite Hl in Hsa. done.
Qed.

Lemma collect_row_ok (M : Z) (W : nat) (row : history)
    (Xi Xp Xs : list ndarray) :
  row ≠ [] → Py.len row ≤ M → Forall (turn_of_width W) row →
  ∃ a b c,
    collect_row M (Xi, Xp, Xs) row = Ok (Xi ++ [a], Xp ++ [b], Xs ++ [c])
    ∧ has_shape 1 (Z.to_nat M * W) a
    ∧ has_shape 1 (Z.to_nat M * W) b
    ∧ has_shape 1 (Z.to_nat M * W) c.
Proof.
  intros Hne Hle Hrow.
  destruct (pad_and_stack (map intent row) M W) as (pi & a & Hpi & Ha & Hsa).
  { by destruct row. }
  { unfold Py.len in *. by rewrite length_map. }
  { apply Forall_fmap. eapply Forall_impl; [exact Hrow|].
    intros t (Hs & Hwf & _). by split. }
  destruct (pad_and_stack (map previous_action row) M W)
    as (pp & b & Hpp & Hb & Hsb).
  { by destruct row. }
  { unfold Py.len in *. by rewrite length_map. }
  { apply Forall_fmap. eapply Forall_impl; [exact Hrow|].
    intros t (_ & _ & Hs & Hwf & _). by split. }
  destruct (pad_and_stack (map (λ t, np.expand_dims0 (slots t)) row) M W)
    as (ps & c & Hps & Hc & Hsc).
  { by destruct row. }
  { unfold Py.len in *. by rewrite length_map. }
  { apply Forall_fmap. eapply Forall_impl; [exact Hrow|].
    intros t (_ & _ & _ & _ & Hs). simpl. rewrite <- Hs.
    apply expand_dims0_has_shape. }
  exists a, b, c. unfold collect_row.
  rewrite Hpi. cbn [mbind result_bind]. rewrite Ha. cbn [mbind result_bind].
  rewrite Hpp. cbn [mbind result_bind]. rewrite Hb. cbn [mbind result_bind].
  rewrite Hps. cbn [mbind result_bind]. rewrite Hc. done.
Qed.

Lemma for_each_collect (M : Z) (W : nat) (X : list history) :
  Forall (λ row : history, row ≠ [] ∧ Py.len row ≤ M
                           ∧ Forall (turn_of_width W) row) X →
  ∀ Xi Xp Xs,
  ∃ Ai Ap As,
    for_each (collect_row M) X (Xi, Xp, Xs) = Ok (Xi ++ Ai, Xp ++ Ap, Xs ++ As)
    ∧ length Ai = length X ∧ length Ap = length X ∧ length As = length X
    ∧ Forall (has_shape 1 (Z.to_nat M * W)) Ai
    ∧ Forall (has_shape 1 (Z.to_nat M * W)) Ap
    ∧ Forall (has_shape 1 (Z.to_nat M * W)) As.
Proof.
  induction 1 as [|row X (Hne & Hle & Hrow) _ IH]; intros Xi Xp Xs.
  - exists [], [], []. rewrite !app_nil_r. done.
  - destruct (collect_row_ok M W row Xi Xp Xs Hne Hle Hrow)
      as (a & b & c & Hc & Ha & Hb & Hcc).
    destruct (IH (Xi ++ [a]) (Xp ++ [b]) (Xs ++ [c]))
      as (Ai & Ap & As & Hf & Hli & Hlp & Hls & Hi & Hp & Hs).
    exists (a :: Ai), (b :: Ap), (c :: As).
    cbn [for_each]. rewrite Hc. cbn [mbind result_bind]. rewrite Hf.
    rewrite <- !app_assoc. simpl. rewrite Hli, Hlp, Hls.
    repeat split; try done; by constructor.
Qed.

Lemma py_max_spec (x : Z) (xs : list Z) :
  x ≤ foldl Z.max x xs
  ∧ Forall (λ z, z ≤ foldl Z.max x xs) xs
  ∧ (foldl Z.max x xs = x ∨ foldl Z.max x xs ∈ xs).
Proof.
  revert x. induction xs as [|z xs IH]; intros x; simpl.
  - split; [lia|]. split; [done|by left].
  - destruct (IH (Z.max x z)) as (H1 & H2 & H3).
    split; [lia|]. split; [constructor; [lia|done]|].
    destruct H3 as [H3|H3].
    + rewrite H3. destruct (Z.max_spec x z) as [[_ ->]|[_ ->]]; [right|left]; [left|done].
    + right. by right.
Qed.

Lemma get_max_dialogue_length_spec (X : list history) :
  X ≠ [] → ∃ M, _get_max_dialogue_length X = Ok M ∧ batch_max X M.
Proof.
  intros Hne. destruct X as [|row X]; [done|].
  unfold _get_max_dialogue_length. cbn [map Py.max].
  eexists. split; [reflexivity|].
  destruct (py_max_spec (Py.len row) (map (λ r : history, Py.len r) X))
    as (H1 & H2 & H3).
  split.
  - constructor; [done|].
    apply Forall_forall. intros r Hr. rewrite Forall_forall in H2.
    apply H2. apply (list_elem_of_fmap_2 (λ r : history, Py.len r)). exact Hr.
  - destruct H3 as [H3|H3].
    + by apply Exists_cons_hd.
    + apply Exists_cons_tl. apply Exists_exists.
      change (map ?f ?l) with (f <$> l) in H3.
      apply list_elem_of_fmap in H3 as (r & Hr & Hin). by exists r.
Qed.

End Assembler.

(** C7 (as stated, refuted). A configured maximum history of 0 is present
    but counts as false in [max_history or ...]: for a batch of one history
    with one turn of width 1 the effective length is the batch's 1, not the
    configured 0, and the assembled matrix has shape (1, 3), not (1, 3*0*1). *)
Lemma max_history_zero_uses_batch :
  let self := Reference.with_window 0 in
  let X := [[Reference.turn1 1%Q]] in
  max_history (featurizer self) = Some 0
  ∧ spec_max_length (max_history (featurizer self)) X = Ok 0
  ∧ max_dialogue_length self X = Ok 1
  ∧ max_dialogue_length self X ≠ spec_max_length (max_history (featurizer self)) X
  ∧ ∃ Xt, _preprocess_data self X = Ok Xt
          ∧ shape Xt = (1%nat, 3%nat)
          ∧ shape Xt ≠ (length X, (3 * 0 * 1)%nat).
Proof.
  intros self X. split; [reflexivity|]. split; [reflexivity|].
  split; [reflexivity|]. split; [discriminate|].
  eexists. split; [vm_compute; reflexivity|]. split; [reflexivity|discriminate].
Qed.

(** C7 (amended). For a non-empty batch of N non-empty histories whose
    per-turn fields all have width W, the effective [max_length] M is the
    configured maximum history when one is set and is not 0 (no history being
    longer than it), and otherwise the largest turn count of the batch; the
    three field matrices have shape (N, M*W) and the assembled X is their
    column-wise concatenation, of shape (N, 3*M*W). *)
Theorem preprocess_data_shape {E F T I : Type} `{!Estimator E}
    `{!TrackerFeaturizer F T I} (self : SklearnPolicy E F) (X : list history)
    (W : nat) :
  X ≠ [] →
  Forall (λ row : history, row ≠ [] ∧ Forall (turn_of_width W) row) X →
  (∀ m, max_history (featurizer self) = Some m → m ≠ 0 →
        Forall (λ row : history, Py.len row ≤ m) X) →
  ∃ M X_intent X_previous_action X_slots Xt,
    max_dialogue_length self X = Ok M
    ∧ match max_history (featurizer self) with
      | Some m => if bool_decide (m = 0) then batch_max X M else M = m
      | None => batch_max X M
      end
    ∧ _collect_features self X = Ok (X_intent, X_previous_action, X_slots)
    ∧ has_shape (length X) (Z.to_nat M * W) X_intent
    ∧ has_shape (length X) (Z.to_nat M * W) X_previous_action
    ∧ has_shape (length X) (Z.to_nat M * W) X_slots
    ∧ np.concatenate_last [X_intent; X_previous_action; X_slots] = Ok Xt
    ∧ _preprocess_data self X = Ok Xt
    ∧ shape Xt = (length X, (3 * (Z.to_nat M * W))%nat)
    ∧ wf_ndarray Xt.
Proof.
  intros Hne Hrows Hcap.
  assert (∃ M, max_dialogue_length self X = Ok M
               ∧ match max_history (featurizer self) with
                 | Some m => if bool_decide (m = 0) then batch_max X M else M = m
                 | None => batch_max X M
                 end
               ∧ Forall (λ row : history, Py.len row ≤ M) X)
    as (M & HM & Hchar & Hle).
  { unfold max_dialogue_length.
    destruct (max_history (featurizer self)) as [m|] eqn:Hmh.
    - case_bool_decide as Hm0.
      + destruct (get_max_dialogue_length_spec X Hne) as (M & HM & Hb).
        exists M. split; [done|]. split; [done|]. by destruct Hb.
      + exists m. split; [done|]. split; [done|]. by apply Hcap.
    - destruct (get_max_dialogue_length_spec X Hne) as (M & HM & Hb).
      exists M. split; [done|]. split; [done|]. by destruct Hb. }
  destruct (for_each_collect M W X) with (Xi := @nil ndarray)
    (Xp := @nil ndarray) (Xs := @nil ndarray)
    as (Ai & Ap & As & Hf & Hli & Hlp & Hls & Hi & Hp & Hs).
  { rewrite Forall_forall in Hrows, Hle. apply Forall_forall. intros row Hrow.
    destruct (Hrows row Hrow). split; [done|]. split; [by apply Hle|done]. }
  simpl in Hf.
  destruct (concatenate0_shape Ai 1 (Z.to_nat M * W)) as (Xi & HXi & HsXi);
    [by destruct Ai, X|done|].
  destruct (concatenate0_shape Ap 1 (Z.to_nat M * W)) as (Xp & HXp & HsXp);
    [by destruct Ap, X|done|].
  destruct (concatenate0_shape As 1 (Z.to_nat M * W)) as (Xs & HXs & HsXs);
    [by destruct As, X|done|].
  rewrite Hli, Nat.mul_1_r in HsXi. rewrite Hlp, Nat.mul_1_r in HsXp.
  rewrite Hls, Nat.mul_1_r in HsXs.
  destruct (concatenate1_shape [Xi; Xp; Xs] (length X) (Z.to_nat M * W))
    as (Xt & HXt & HsXt); [done|by rewrite !Forall_cons, Forall_nil|].
  assert (_collect_features self X = Ok (Xi, Xp, Xs)) as Hcf.
  { unfold _collect_features. rewrite HM. cbn [mbind result_bind].
    rewrite Hf. cbn [mbind result_bind]. unfold np.vstack.
    rewrite HXi. cbn [mbind result_bind]. rewrite HXp. cbn [mbind result_bind].
    rewrite HXs. done. }
  exists M, Xi, Xp, Xs, Xt. destruct HsXt as [Hshape Hwf].
  repeat (split; [done|]).
  split; [|done]. unfold _preprocess_data. rewrite Hcf. exact HXt.
Qed.

Lemma turn1_width (q : Q) : turn_of_width 1 (Reference.turn1 q).
Proof. repeat split; simpl; by repeat constructor. Qed.

Lemma preprocess_data_shape_witness :
  let self := Reference.with_window 3 in
  let X := [[Reference.turn1 1%Q; Reference.turn1 0%Q]; [Reference.turn1 (1 # 2)]] in
  ∃ M X_intent X_previous_action X_slots Xt,
    max_dialogue_length self X = Ok M
    ∧ match max_history (featurizer self) with
      | Some m => if bool_decide (m = 0) then batch_max X M else M = m
      | None => batch_max X M
      end
    ∧ _collect_features self X = Ok (X_intent, X_previous_action, X_slots)
    ∧ has_shape (length X) (Z.to_nat M * 1) X_intent
    ∧ has_shape (length X) (Z.to_nat M * 1) X_previous_action
    ∧ has_shape (length X) (Z.to_nat M * 1) X_slots
    ∧ np.concatenate_last [X_intent; X_previous_action; X_slots] = Ok Xt
    ∧ _preprocess_data self X = Ok Xt
    ∧ shape Xt = (length X, (3 * (Z.to_nat M * 1))%nat)
    ∧ wf_ndarray Xt.
Proof.
  intros self X. apply (preprocess_data_shape self X 1).
  - discriminate.
  - repeat (constructor; [split; [discriminate|]; repeat (constructor; [apply turn1_width|]); constructor|]).
    constructor.
  - intros m Hm _. vm_compute in Hm. injection Hm as <-.
    repeat (constructor; [unfold Py.len; simpl; lia|]). constructor.
Defined.

(** ** Construction and pickled state *)



(** X2. The pickled state has exactly the keys of [_pickle_params], and
    merging it into any policy gives a policy with that same pickled state
    whose featurizer, priority, shuffle flag and training keywords are
    untouched. *)
Theorem state_update_roundtrip {E F : Type} (fresh self : SklearnPolicy E F) :
  (_state self).*1 = _pickle_params
  ∧ _state (vars_update fresh (_state self)) = _state self
  ∧ featurizer (vars_update fresh (_state self)) = featurizer fresh
  ∧ priority (vars_update fresh (_state self)) = priority fresh
  ∧ shuffle (vars_update fresh (_state self)) = shuffle fresh
  ∧ _train_params (vars_update fresh (_state self)) = _train_params fresh.
Proof. rewrite vars_update_state. by repeat split. Qed.

Section AssemblerEdges.

Context {E F T I : Type} `{!Estimator E} `{!TrackerFeaturizer F T I}.

Lemma pad_and_stack_any (sf : list ndarray) (M : Z) (W : nat) :
  sf ≠ [] → Forall (has_shape 1 W) sf →
  ∃ padded a,
    _fill_in_features sf M = Ok padded
    ∧ np.hstack padded = Ok a
    ∧ has_shape 1 (Z.to_nat (Z.max M (Py.len sf)) * W) a.
Proof.
  intros Hne Hall. destruct sf as [|x0 sf]; [done|].
  destruct (fill_shape x0 sf M) as (k & Hk & Hlen).
  pose proof Hall as Hall'. apply Forall_cons in Hall' as [[Hx0 _] _].
  rewrite Hx0 in Hk. cbn [snd] in Hk.
  set (padded := replicate k (sentinel W) ++ x0 :: sf) in *.
  assert (Forall (has_shape 1 W) padded) as Hpadded.
  { apply Forall_app. split; [|done].
    apply Forall_forall. intros s Hs. apply elem_of_replicate in Hs as [-> _].
    apply sentinel_has_shape. }
  assert (length padded = Z.to_nat (Z.max M (Py.len (x0 :: sf)))) as Hl.
  { unfold padded. rewrite length_app, length_replicate.
    unfold Py.len in *. lia. }
  destruct (concatenate1_shape padded 1 W) as (a & Ha & Hsa); [|done|].
  { unfold padded. by destruct (replicate k (sentinel W)). }
  exists padded, a. rewrite Hl in Hsa. done.
Qed.

Lemma collect_row_any (M : Z) (W : nat) (row : history)
    (Xi Xp Xs : list ndarray) :
  row ≠ [] → Forall (turn_of_width W) row →
  ∃ a b c,
    collect_row M (Xi, Xp, Xs) row = Ok (Xi ++ [a], Xp ++ [b], Xs ++ [c])
    ∧ has_shape 1 (padded_length M row * W) a
    ∧ has_shape 1 (padded_length M row * W) b
    ∧ has_shape 1 (padded_length M row * W) c.
Proof.
  intros Hne Hrow. unfold padded_length.
  destruct (pad_and_stack_any (map intent row) M W) as (pi & a & Hpi & Ha & Hsa).
  { by destruct row. }
  { apply Forall_fmap. eapply Forall_impl; [exact Hrow|].
    intros t (Hs & Hwf & _). by split. }
  destruct (pad_and_stack_any (map previous_action row) M W)
    as (pp & b & Hpp & Hb & Hsb).
  { by destruct row. }
  { apply Forall_fmap. eapply Forall_impl; [exact Hrow|].
    intros t (_ & _ & Hs & Hwf & _). by split. }
  destruct (pad_and_stack_any (map (λ t, np.expand_dims0 (slots t)) row) M W)
    as (ps & c & Hps & Hc & Hsc).
  { by destruct row. }
  { apply Forall_fmap. eapply Forall_impl; [exact Hrow|].
    intros t (_ & _ & _ & _ & Hs). simpl. rewrite <- Hs.
    apply expand_dims0_has_shape. }
  unfold Py.len in *. rewrite !length_map in *.
  exists a, b, c. unfold collect_row.
  rewrite Hpi. cbn [mbind result_bind]. rewrite Ha. cbn [mbind result_bind].
  rewrite Hpp. cbn [mbind result_bind]. rewrite Hb. cbn [mbind result_bind].
  rewrite Hps. cbn [mbind result_bind]. rewrite Hc. done.
Qed.

Lemma for_each_collect_any (M : Z) (W : nat) (X : list history) :
  Forall (λ row : history, row ≠ [] ∧ Forall (turn_of_width W) row) X →
  ∀ Xi Xp Xs,
  ∃ Ai Ap As,
    for_each (collect_row M) X (Xi, Xp, Xs) = Ok (Xi ++ Ai, Xp ++ Ap, Xs ++ As)
    ∧ Forall2 (λ row a, has_shape 1 (padded_length M row * W) a) X Ai
    ∧ Forall2 (λ row a, has_shape 1 (padded_length M row * W) a) X Ap
    ∧ Forall2 (λ row a, has_shape 1 (padded_length M row * W) a) X As.
Proof.
  induction 1 as [|row X (Hne & Hrow) _ IH]; intros Xi Xp Xs.
  - exists [], [], []. rewrite !app_nil_r. by repeat split.
  - destruct (collect_row_any M W row Xi Xp Xs Hne Hrow)
      as (a & b & c & Hc & Ha & Hb & Hcc).
    destruct (IH (Xi ++ [a]) (Xp ++ [b]) (Xs ++ [c]))
      as (Ai & Ap & As & Hf & Hi & Hp & Hs).
    exists (a :: Ai), (b :: Ap), (c :: As).
    cbn [for_each]. rewrite Hc. cbn [mbind result_bind]. rewrite Hf.
    rewrite <- !app_assoc. simpl. repeat split; try done; by constructor.
Qed.

Lemma for_each_app {A S} (body : S → A → result S) (l1 l2 : list A) (acc : S) :
  for_each body (l1 ++ l2) acc = for_each body l1 acc ≫= for_each body l2.
Proof.
  revert acc. induction l1 as [|x l1 IH]; intros acc; [done|].
  simpl. destruct (body acc x); [apply IH|done].
Qed.

Lemma concatenate0_mismatch (a0 : ndarray) (rest : list ndarray) :
  Exists (λ b, (shape b).2 ≠ (shape a0).2) rest →
  np.concatenate0 (a0 :: rest) = Raise ValueError.
Proof.
  intros H. unfold np.concatenate0.
  destruct (forallb _ rest) eqn:Hf; [|done].
  exfalso. apply Exists_exists in H as (b & Hb & Hne).
  rewrite forallb_forall in Hf. apply list_elem_of_In in Hb.
  specialize (Hf b Hb). apply Nat.eqb_eq in Hf. done.
Qed.

End AssemblerEdges.

Section AssemblerTheorems.

Context {E F T I : Type} `{!Estimator E} `{!TrackerFeaturizer F T I}.

Lemma fill_nil (M : Z) : M ≠ 0 → _fill_in_features [] M = Raise IndexError.
Proof.
  intros H. unfold _fill_in_features.
  rewrite bool_decide_eq_false_2 by (unfold Py.len; simpl; lia).
  by rewrite getitem_nil.
Qed.

Lemma collect_row_nil (M : Z) (acc : list ndarray * list ndarray * list ndarray) :
  M ≠ 0 → collect_row M acc [] = Raise IndexError.
Proof.
  intros H. destruct acc as [[Xi Xp] Xs]. unfold collect_row. cbn [map].
  by rewrite fill_nil.
Qed.

Lemma shapes_uniform (M : Z) (W K : nat) (X : list history) (A : list ndarray) :
  Forall (λ row, padded_length M row = K) X →
  Forall2 (λ row a, has_shape 1 (padded_length M row * W) a) X A →
  Forall (has_shape 1 (K * W)) A ∧ length A = length X.
Proof.
  intros HK H2. induction H2 as [|row a X A Hra _ IH]; [done|].
  apply Forall_cons in HK as [Hrow HK]. destruct (IH HK) as [IH1 IH2].
  rewrite Hrow in Hra. split; [by constructor|]. simpl. by rewrite IH2.
Qed.

Lemma shapes_ragged (M : Z) (W : nat) (row0 : history) (a0 : ndarray)
    (X : list history) (A : list ndarray) :
  W ≠ 0%nat →
  has_shape 1 (padded_length M row0 * W) a0 →
  Exists (λ row, padded_length M row ≠ padded_length M row0) X →
  Forall2 (λ row a, has_shape 1 (padded_length M row * W) a) X A →
  Exists (λ b, (shape b).2 ≠ (shape a0).2) A.
Proof.
  intros HW [Ha0 _] Hex H2. induction H2 as [|row a X A [Hra _] _ IH].
  - by apply Exists_nil in Hex.
  - apply Exists_cons in Hex as [Hex|Hex].
    + apply Exists_cons_hd. rewrite Hra, Ha0. simpl.
      intros Heq. apply Nat.mul_cancel_r in Heq; done.
    + apply Exists_cons_tl. by apply IH.
Qed.

(** X3. [_get_max_dialogue_length] raises ValueError on an empty batch; on a
    non-empty one it returns the largest turn count of the batch, which some
    history attains and which is not negative. *)
Theorem get_max_dialogue_length_outcome (X : list history) :
  match X with
  | [] => _get_max_dialogue_length X = Raise ValueError
  | _ :: _ => ∃ M, _get_max_dialogue_length X = Ok M ∧ batch_max X M ∧ 0 ≤ M
  end.
Proof.
  destruct X as [|row X]; [done|].
  destruct (get_max_dialogue_length_spec (row :: X)) as (M & HM & Hb); [done|].
  exists M. split; [done|]. split; [done|].
  destruct Hb as [Hle _]. apply Forall_cons in Hle as [Hle _].
  unfold Py.len in Hle. lia.
Qed.

(** X4. The feature assembler raises ValueError on an empty batch, whatever
    the featurizer's maximum history is. *)
Theorem preprocess_data_empty_batch (self : SklearnPolicy E F) :
  _collect_features self [] = Raise ValueError
  ∧ _preprocess_data self [] = Raise ValueError.
Proof.
  assert (_collect_features self [] = Raise ValueError) as Hc.
  { unfold _collect_features, max_dialogue_length.
    destruct (max_history (featurizer self)) as [m|]; [|done].
    by case_bool_decide. }
  split; [done|]. unfold _preprocess_data. by rewrite Hc.
Qed.

(** X5. The assembler never truncates: when every history of a non-empty
    batch of well-formed histories occupies the same number K of turns after
    padding to the effective length M (K is the larger of M and the turn
    count), the field matrices have shape (N, K*W) and X has shape
    (N, 3*K*W); K is at least M and at least every turn count, so histories
    longer than M keep all their turns. *)
Theorem preprocess_data_never_truncates (self : SklearnPolicy E F)
    (X : list history) (W : nat) (M : Z) (K : nat) :
  X ≠ [] →
  Forall (λ row : history, row ≠ [] ∧ Forall (turn_of_width W) row) X →
  max_dialogue_length self X = Ok M →
  Forall (λ row, padded_length M row = K) X →
  ∃ X_intent X_previous_action X_slots Xt,
    _collect_features self X = Ok (X_intent, X_previous_action, X_slots)
    ∧ has_shape (length X) (K * W) X_intent
    ∧ has_shape (length X) (K * W) X_previous_action
    ∧ has_shape (length X) (K * W) X_slots
    ∧ _preprocess_data self X = Ok Xt
    ∧ has_shape (length X) (3 * (K * W)) Xt
    ∧ Forall (λ row : history, (length row ≤ K)%nat ∧ (Z.to_nat M ≤ K)%nat) X.
Proof.
  intros Hne Hrows HM HK.
  destruct (for_each_collect_any M W X Hrows [] [] [])
    as (Ai & Ap & As & Hf & Hi & Hp & Hs).
  simpl in Hf.
  destruct (shapes_uniform M W K X Ai HK Hi) as [Hsi Hli].
  destruct (shapes_uniform M W K X Ap HK Hp) as [Hsp Hlp].
  destruct (shapes_uniform M W K X As HK Hs) as [Hss Hls].
  destruct (concatenate0_shape Ai 1 (K * W)) as (Xi & HXi & HsXi);
    [by destruct Ai, X|done|].
  destruct (concatenate0_shape Ap 1 (K * W)) as (Xp & HXp & HsXp);
    [by destruct Ap, X|done|].
  destruct (concatenate0_shape As 1 (K * W)) as (Xs & HXs & HsXs);
    [by destruct As, X|done|].
  rewrite Hli, Nat.mul_1_r in HsXi. rewrite Hlp, Nat.mul_1_r in HsXp.
  rewrite Hls, Nat.mul_1_r in HsXs.
  destruct (concatenate1_shape [Xi; Xp; Xs] (length X) (K * W))
    as (Xt & HXt & HsXt); [done|by rewrite !Forall_cons, Forall_nil|].
  assert (_collect_features self X = Ok (Xi, Xp, Xs)) as Hcf.
  { unfold _collect_features. rewrite HM. cbn [mbind result_bind].
    rewrite Hf. cbn [mbind result_bind]. unfold np.vstack.
    rewrite HXi. cbn [mbind result_bind]. rewrite HXp. cbn [mbind result_bind].
    rewrite HXs. done. }
  exists Xi, Xp, Xs, Xt. repeat (split; [done|]).
  split; [unfold _preprocess_data; rewrite Hcf; exact HXt|].
  split; [done|].
  eapply Forall_impl; [exact HK|]. intros row <-.
  unfold padded_length, Py.len. lia.
Qed.

(** X6. When two well-formed histories of a batch occupy different numbers
    of turns after padding (one of them is longer than the effective
    length), their rows have different widths and the assembler raises
    ValueError when it stacks them. *)
Theorem preprocess_data_ragged (self : SklearnPolicy E F)
    (row0 : history) (X : list history) (W : nat) (M : Z) :
  W ≠ 0%nat →
  Forall (λ row : history, row ≠ [] ∧ Forall (turn_of_width W) row) (row0 :: X) →
  max_dialogue_length self (row0 :: X) = Ok M →
  Exists (λ row, padded_length M row ≠ padded_length M row0) X →
  _collect_features self (row0 :: X) = Raise ValueError
  ∧ _preprocess_data self (row0 :: X) = Raise ValueError.
Proof.
  intros HW Hrows HM Hex.
  destruct (for_each_collect_any M W (row0 :: X) Hrows [] [] [])
    as (Ai & Ap & As & Hf & Hi & Hp & Hs).
  change (for_each (collect_row M) (row0 :: X) ([], [], []) = Ok (Ai, Ap, As)) in Hf.
  apply Forall2_cons_inv_l in Hi as (a0 & Ai' & Ha0 & Hi & ->).
  assert (_collect_features self (row0 :: X) = Raise ValueError) as Hcf.
  { unfold _collect_features. rewrite HM. cbn [mbind result_bind].
    rewrite Hf. cbn [mbind result_bind]. unfold np.vstack.
    rewrite concatenate0_mismatch; [done|].
    by eapply shapes_ragged. }
  split; [done|]. unfold _preprocess_data. by rewrite Hcf.
Qed.

(** X7. A history without turns, coming after well-formed histories, makes
    the assembler raise IndexError whenever the effective length is not 0. *)
Theorem preprocess_data_empty_history (self : SklearnPolicy E F)
    (before after : list history) (W : nat) (M : Z) :
  Forall (λ row : history, row ≠ [] ∧ Forall (turn_of_width W) row) before →
  max_dialogue_length self (before ++ [] :: after) = Ok M →
  M ≠ 0 →
  _collect_features self (before ++ [] :: after) = Raise IndexError
  ∧ _preprocess_data self (before ++ [] :: after) = Raise IndexError.
Proof.
  intros Hrows HM HM0.
  destruct (for_each_collect_any M W before Hrows [] [] [])
    as (Ai & Ap & As & Hf & _).
  assert (_collect_features self (before ++ [] :: after) = Raise IndexError)
    as Hcf.
  { unfold _collect_features. rewrite HM. cbn [mbind result_bind].
    rewrite for_each_app, Hf. cbn [mbind result_bind for_each].
    rewrite collect_row_nil by done. done. }
  split; [done|]. unfold _preprocess_data. by rewrite Hcf.
Qed.

End AssemblerTheorems.

Lemma preprocess_data_never_truncates_witness :
  let t := Reference.turn1 1%Q in
  let X := [[t; t; t]; [t; t; t]] in
  ∃ X_intent X_previous_action X_slots Xt,
    _collect_features (Reference.with_window 2) X
      = Ok (X_intent, X_previous_action, X_slots)
    ∧ has_shape (length X) (3 * 1) X_intent
    ∧ has_shape (length X) (3 * 1) X_previous_action
    ∧ has_shape (length X) (3 * 1) X_slots
    ∧ _preprocess_data (Reference.with_window 2) X = Ok Xt
    ∧ has_shape (length X) (3 * (3 * 1)) Xt
    ∧ Forall (λ row : history, (length row ≤ 3)%nat ∧ (Z.to_nat 2 ≤ 3)%nat) X.
Proof.
  intros t X.
  apply (preprocess_data_never_truncates (Reference.with_window 2) X 1 2 3).
  - discriminate.
  - repeat (constructor; [split; [discriminate|];
                          repeat (constructor; [apply turn1_width|]); constructor|]).
    constructor.
  - reflexivity.
  - repeat (constructor; [reflexivity|]). constructor.
Defined.

Lemma preprocess_data_ragged_witness :
  let t := Reference.turn1 1%Q in
  _collect_features (Reference.with_window 2) [[t]; [t; t; t]] = Raise ValueError
  ∧ _preprocess_data (Reference.with_window 2) [[t]; [t; t; t]] = Raise ValueError.
Proof.
  intros t.
  apply (preprocess_data_ragged (Reference.with_window 2) [t] [[t; t; t]] 1 2).
  - discriminate.
  - repeat (constructor; [split; [discriminate|];
                          repeat (constructor; [apply turn1_width|]); constructor|]).
    constructor.
  - reflexivity.
  - constructor. vm_compute. discriminate.
Defined.

Lemma preprocess_data_empty_history_witness :
  let t := Reference.turn1 1%Q in
  _collect_features Reference.trained ([[t; t]] ++ [] :: [[t]]) = Raise IndexError
  ∧ _preprocess_data Reference.trained ([[t; t]] ++ [] :: [[t]]) = Raise IndexError.
Proof.
  intros t.
  apply (preprocess_data_empty_history Reference.trained [[t; t]] [[t]] 1 2).
  - repeat (constructor; [split; [discriminate|];
                          repeat (constructor; [apply turn1_width|]); constructor|]).
    constructor.
  - reflexivity.
  - discriminate.
Defined.

Section ReconcilerEdges.

Lemma setitem_ok_inv {A} (l : list A) (i : Z) (x : A) (r : list A) :
  Py.setitem l i x = Ok r →
  - Z.of_nat (length l) ≤ i < Z.of_nat (length l)
  ∧ ∃ k, (k < length l)%nat ∧ r = <[k:=x]> l.
Proof.
  unfold Py.setitem, Py.index. intros H.
  repeat case_bool_decide; try discriminate H; injection H as <-;
    (split; [lia|]); eexists; (split; [|done]); lia.
Qed.

Lemma setitem_raise_inv {A} (l : list A) (i : Z) (x : A) (e : exception) :
  Py.setitem l i x = Raise e →
  e = IndexError ∧ ¬ (- Z.of_nat (length l) ≤ i < Z.of_nat (length l)).
Proof.
  unfold Py.setitem, Py.index. intros H.
  repeat case_bool_decide; try discriminate H. injection H as <-. split; [done|lia].
Qed.

Lemma setitem_out_of_range {A} (l : list A) (i : Z) (x : A) :
  ¬ (- Z.of_nat (length l) ≤ i < Z.of_nat (length l)) →
  Py.setitem l i x = Raise IndexError.
Proof.
  intros H. unfold Py.setitem, Py.index.
  rewrite !bool_decide_eq_false_2; [done|lia|lia].
Qed.

(** Whatever the indices, the loop keeps the length of [y_filled] and only
    ever stores values it was given. *)
Lemma for_each_setitem_inv (ips : list (Z * Q)) (acc r : list Q) :
  for_each (λ y_filled ip, Py.setitem y_filled ip.1 ip.2) ips acc = Ok r →
  length r = length acc
  ∧ Forall (λ q, q ∈ acc ∨ q ∈ ips.*2) r.
Proof.
  revert acc. induction ips as [|ip ips IH]; intros acc H.
  - injection H as <-. split; [done|]. apply Forall_forall. by left.
  - cbn [for_each] in H.
    destruct (Py.setitem acc ip.1 ip.2) as [acc'|e] eqn:Hs; [|discriminate H].
    cbn in H. apply IH in H as [Hlen Hall].
    apply setitem_ok_inv in Hs as (_ & k & Hk & ->).
    rewrite length_insert in Hlen. split; [done|].
    eapply Forall_impl; [exact Hall|]. intros q [Hq|Hq].
    + apply list_elem_of_lookup in Hq as [j Hj].
      destruct (decide (k = j)) as [->|Hne].
      * rewrite list_lookup_insert_eq in Hj by done. injection Hj as <-.
        right. rewrite fmap_cons. by left.
      * rewrite list_lookup_insert_ne in Hj by done.
        left. by eapply list_elem_of_lookup_2.
    + right. rewrite fmap_cons. by right.
Qed.

Lemma for_each_setitem_raises (ips : list (Z * Q)) (acc : list Q) :
  Exists (λ ip, ¬ (- Z.of_nat (length acc) ≤ ip.1 < Z.of_nat (length acc))) ips →
  for_each (λ y_filled ip, Py.setitem y_filled ip.1 ip.2) ips acc
  = Raise IndexError.
Proof.
  revert acc. induction ips as [|ip ips IH]; intros acc H.
  - by apply Exists_nil in H.
  - cbn [for_each].
    destruct (Py.setitem acc ip.1 ip.2) as [acc'|e] eqn:Hs.
    + cbn. apply setitem_ok_inv in Hs as (Hin & k & Hk & ->).
      apply IH. rewrite length_insert.
      apply Exists_cons in H as [H|H]; [|done]. by destruct H.
    + apply setitem_raise_inv in Hs as [-> _]. done.
Qed.

End ReconcilerEdges.

(** X8. Whenever the reconciliation returns a vector, it has [num_actions]
    entries, each of them 0 or one of the probabilities of the first row of
    the model's output. *)
Theorem postprocess_prediction_length {E F : Type} (self : SklearnPolicy E F)
    (y_proba : ndarray) (domain : Domain) (y_filled : list Q) :
  _postprocess_prediction self y_proba domain = Ok y_filled →
  length y_filled = num_actions domain
  ∧ ∃ yp, rows y_proba !! 0%nat = Some yp
          ∧ Forall (λ q, q = 0%Q ∨ q ∈ yp) y_filled.
Proof.
  unfold _postprocess_prediction. intros H.
  destruct (rows y_proba) as [|yp rest] eqn:Hrows.
  { rewrite getitem_nil in H. discriminate H. }
  rewrite getitem_head in H. cbn [mbind result_bind] in H.
  destruct (Encoder.inverse_transform _ _) as [indices|e]; [|discriminate H].
  cbn [mbind result_bind] in H.
  apply for_each_setitem_inv in H as [Hlen Hall].
  rewrite length_replicate in Hlen. split; [done|].
  exists yp. split; [done|].
  eapply Forall_impl; [exact Hall|]. intros q [Hq|Hq].
  - left. by apply elem_of_replicate in Hq as [-> _].
  - right. apply list_elem_of_fmap in Hq as ([i p] & -> & Hin).
    by apply elem_of_zip_r in Hin.
Qed.

Lemma postprocess_prediction_length_witness :
  ∃ y_filled,
    predict_action_probabilities Reference.trained ([Reference.turn1 1%Q], 0)
                                 {| num_actions := 4 |} () = Ok y_filled
    ∧ length y_filled = 4%nat
    ∧ ∃ yp, [[1 # 2; 1 # 2]%Q] !! 0%nat = Some yp
            ∧ Forall (λ q, q = 0%Q ∨ q ∈ yp) y_filled.
Proof.
  eexists. split; [vm_compute; reflexivity|].
  apply (postprocess_prediction_length Reference.trained
           {| shape := (1%nat, 2%nat); rows := [[1 # 2; 1 # 2]%Q] |}
           {| num_actions := 4 |}).
  vm_compute. reflexivity.
Defined.

(** X9. The reconciliation raises IndexError when the model's output has no
    row, NotFittedError when the label encoder was never fit, and ValueError
    when the model gives more probabilities than the encoder has classes. *)
Theorem postprocess_prediction_errors {E F : Type} (self : SklearnPolicy E F)
    (y_proba : ndarray) (domain : Domain) :
  (rows y_proba = [] →
     _postprocess_prediction self y_proba domain = Raise IndexError)
  ∧ (∀ yp, rows y_proba !! 0%nat = Some yp →
       classes_ (label_encoder self) = None →
       _postprocess_prediction self y_proba domain = Raise NotFittedError)
  ∧ (∀ yp cs, rows y_proba !! 0%nat = Some yp →
       classes_ (label_encoder self) = Some cs →
       (length cs < length yp)%nat →
       _postprocess_prediction self y_proba domain = Raise ValueError).
Proof.
  unfold _postprocess_prediction. split; [|split].
  - intros ->. by rewrite getitem_nil.
  - intros yp Hrow Hnone. destruct (rows y_proba) as [|r rest]; [done|].
    rewrite getitem_head. cbn [mbind result_bind].
    unfold Encoder.inverse_transform, Encoder.fitted. by rewrite Hnone.
  - intros yp cs Hrow Hcs Hlt. destruct (rows y_proba) as [|r rest]; [done|].
    simpl in Hrow. injection Hrow as ->.
    rewrite getitem_head. cbn [mbind result_bind].
    unfold Encoder.inverse_transform, Encoder.fitted. rewrite Hcs.
    cbn [mbind result_bind].
    destruct (mapM _ (arange (length yp))) as [ls|] eqn:Hm; [|done].
    exfalso. apply mapM_Some_1 in Hm.
    assert (arange (length yp) !! length cs = Some (Z.of_nat (length cs))) as Hk.
    { unfold arange. rewrite list_lookup_fmap, lookup_seq_lt by done. done. }
    destruct (Forall2_lookup_l _ _ _ _ _ Hm Hk) as (l & _ & Hl).
    rewrite bool_decide_eq_true_2 in Hl by lia. rewrite Nat2Z.id in Hl.
    apply lookup_lt_Some in Hl. lia.
Qed.

(** X10. When a class of the label encoder is not an index of the action
    space (neither in [0, num_actions) nor a negative index Python would
    wrap), the reconciliation raises IndexError. *)
Theorem postprocess_prediction_label_out_of_range {E F : Type}
    (self : SklearnPolicy E F) (y_proba : ndarray) (domain : Domain)
    (yp : list Q) (cs : list Z) :
  rows y_proba !! 0%nat = Some yp →
  classes_ (label_encoder self) = Some cs →
  length yp = length cs →
  Exists (λ l, ¬ (- Z.of_nat (num_actions domain) ≤ l
                  < Z.of_nat (num_actions domain))) cs →
  _postprocess_prediction self y_proba domain = Raise IndexError.
Proof.
  unfold _postprocess_prediction.
  intros Hrow Hcs Hlen Hout. destruct (rows y_proba) as [|r rest]; [done|].
    simpl in Hrow. injection Hrow as ->.
    rewrite getitem_head. cbn [mbind result_bind]. rewrite Hlen.
    rewrite (inverse_transform_arange _ cs) by done. cbn [mbind result_bind].
    apply for_each_setitem_raises. rewrite length_replicate.
    apply Exists_exists in Hout as (l & Hl & Hrange).
    apply list_elem_of_lookup in Hl as [k Hk].
    destruct (lookup_lt_is_Some_2 yp k) as [p Hp].
    { rewrite Hlen. by eapply lookup_lt_Some. }
    apply Exists_exists. exists (l, p). split; [|done].
    apply list_elem_of_lookup. exists k. apply lookup_zip_with_Some. by exists l, p.
Qed.

Section Mass.

Lemma sumQ_insert (acc : list Q) (i : nat) (p x : Q) :
  acc !! i = Some x → (sumQ (<[i:=p]> acc) == sumQ acc + p - x)%Q.
Proof.
  revert i. induction acc as [|a acc IH]; intros i Hi; [done|].
  destruct i as [|i]; simpl in *.
  - injection Hi as ->. ring.
  - rewrite (IH i Hi). ring.
Qed.

Lemma sumQ_zeros (n : nat) : (sumQ (replicate n 0%Q) == 0)%Q.
Proof. induction n as [|n IH]; simpl; [reflexivity|]. rewrite IH. ring. Qed.

Lemma place_sum (ips : list (Z * Q)) (acc : list Q) :
  Forall (λ ip, 0 ≤ ip.1 ∧ acc !! Z.to_nat ip.1 = Some 0%Q) ips →
  NoDup ips.*1 →
  (sumQ (place acc ips) == sumQ acc + sumQ ips.*2)%Q.
Proof.
  revert acc. induction ips as [|[i p] ips IH]; intros acc Hz Hnd.
  - simpl. ring.
  - apply Forall_cons in Hz as [[Hi0 Hi] Hz].
    rewrite fmap_cons in Hnd. apply NoDup_cons in Hnd as [Hnotin Hnd].
    change (place acc ((i, p) :: ips)) with (place (<[Z.to_nat i := p]> acc) ips).
    rewrite IH; [| |done].
    + simpl in Hi. rewrite (sumQ_insert acc _ p 0%Q Hi). rewrite fmap_cons.
      change (sumQ ((i, p).2 :: ips.*2)) with (p + sumQ ips.*2)%Q. ring.
    + apply Forall_forall. intros [j q] Hj. rewrite Forall_forall in Hz.
      destruct (Hz _ Hj) as [Hj0 Hjz]. simpl in *. split; [done|].
      rewrite list_lookup_insert_ne; [done|].
      intros Heq. apply Hnotin. assert (i = j) as -> by lia.
      apply list_elem_of_fmap. by exists (j, q).
Qed.

End Mass.

(** X11. No renormalisation: under the conditions of a trained policy the
    entries of the reconciled vector add up to what the model's
    probabilities add up to. *)
Theorem postprocess_prediction_mass {E F : Type} (self : SklearnPolicy E F)
    (encoder : LabelEncoder) (y : list Z) (domain : Domain)
    (y_proba : ndarray) (yp : list Q) :
  label_encoder self = Encoder.fit encoder y →
  Forall (λ l, 0 ≤ l < Z.of_nat (num_actions domain)) y →
  rows y_proba !! 0%nat = Some yp →
  length yp = length (Encoder.unique y) →
  ∃ y_filled,
    _postprocess_prediction self y_proba domain = Ok y_filled
    ∧ (sumQ y_filled == sumQ yp)%Q.
Proof.
  intros Henc Hy Hrow Hlen.
  set (cs := Encoder.unique y) in *.
  assert (Forall (λ l, 0 ≤ l < Z.of_nat (num_actions domain)) cs) as Hcs.
  { apply Forall_forall. intros l Hl. apply (proj1 (unique_elem_of y l)) in Hl.
    rewrite Forall_forall in Hy. by apply Hy. }
  assert (classes_ (label_encoder self) = Some cs) as Hfit
    by (rewrite Henc; reflexivity).
  set (zeros := replicate (num_actions domain) 0%Q).
  assert ((zip cs yp).*1 = cs) as Hfst by (apply fst_zip; lia).
  assert ((zip cs yp).*2 = yp) as Hsnd by (apply snd_zip; lia).
  exists (place zeros (zip cs yp)). split.
  - unfold _postprocess_prediction.
    destruct (rows y_proba) as [|r rs]; [done|]. simpl in Hrow.
    injection Hrow as ->. rewrite getitem_head.
    cbn [mbind result_bind]. rewrite Hlen.
    rewrite (inverse_transform_arange _ cs) by done.
    cbn [mbind result_bind]. apply for_each_setitem.
    unfold zeros. rewrite length_replicate. apply Forall_forall. intros [l p] Hlp.
    apply elem_of_zip_l in Hlp. rewrite Forall_forall in Hcs. by apply Hcs.
  - rewrite place_sum.
    + rewrite Hsnd. unfold zeros. rewrite sumQ_zeros. ring.
    + apply Forall_forall. intros [l p] Hlp. apply elem_of_zip_l in Hlp.
      rewrite Forall_forall in Hcs. specialize (Hcs _ Hlp). simpl.
      split; [lia|]. unfold zeros. apply lookup_replicate_2. lia.
    + rewrite Hfst. apply unique_NoDup.
Qed.

Lemma postprocess_prediction_errors_witness :
  let domain := {| num_actions := 4 |} in
  let two := {| shape := (1%nat, 2%nat); rows := [[1 # 2; 1 # 2]%Q] |} in
  let three := {| shape := (1%nat, 3%nat); rows := [[1 # 3; 1 # 3; 1 # 3]%Q] |} in
  _postprocess_prediction Reference.trained {| shape := (0%nat, 2%nat); rows := [] |}
                          domain = Raise IndexError
  ∧ _postprocess_prediction Reference.fresh two domain = Raise NotFittedError
  ∧ _postprocess_prediction Reference.trained three domain = Raise ValueError.
Proof.
  intros domain two three. split; [|split].
  - apply (proj1 (postprocess_prediction_errors Reference.trained
                    {| shape := (0%nat, 2%nat); rows := [] |} domain)).
    reflexivity.
  - apply (proj1 (proj2 (postprocess_prediction_errors Reference.fresh two domain))
             [1 # 2; 1 # 2]%Q); reflexivity.
  - apply (proj2 (proj2 (postprocess_prediction_errors Reference.trained three
                           domain)) [1 # 3; 1 # 3; 1 # 3]%Q [0; 2]).
    + reflexivity.
    + reflexivity.
    + simpl. lia.
Defined.

Lemma postprocess_prediction_label_out_of_range_witness :
  _postprocess_prediction Reference.trained
      {| shape := (1%nat, 2%nat); rows := [[1 # 2; 1 # 2]%Q] |}
      {| num_actions := 2 |}
  = Raise IndexError.
Proof.
  apply (postprocess_prediction_label_out_of_range Reference.trained _
           {| num_actions := 2 |} [1 # 2; 1 # 2]%Q [0; 2]).
  - reflexivity.
  - reflexivity.
  - reflexivity.
  - apply Exists_cons_tl, Exists_cons_hd. simpl. lia.
Defined.

Lemma postprocess_prediction_mass_witness :
  let yp := [1 # 4; 3 # 4]%Q in
  ∃ y_filled,
    _postprocess_prediction Reference.trained
        {| shape := (1%nat, 2%nat); rows := [yp] |} {| num_actions := 4 |}
      = Ok y_filled
    ∧ (sumQ y_filled == sumQ yp)%Q.
Proof.
  intros yp.
  apply (postprocess_prediction_mass Reference.trained Encoder.new [2; 0; 2]
           {| num_actions := 4 |} {| shape := (1%nat, 2%nat); rows := [yp] |} yp).
  - reflexivity.
  - repeat (constructor; [simpl; lia|]). constructor.
  - reflexivity.
  - reflexivity.
Defined.

Section PersistenceEdges.

Context {E F T I : Type} `{!Estimator E} `{!TrackerFeaturizer F T I}.

(** X12. When [persist] returns normally for a policy whose model is present,
    it has emitted nothing, the metadata record read back is
    [{"priority": priority}], the pickle read back is the policy's pickled
    state, and every other path holds what the featurizer's own persist left
    there; for a policy whose model is falsy it has changed no file and
    emitted exactly the warning. *)
Theorem persist_effects (self : SklearnPolicy E F) (p : path) (w w' : world E F) :
  persist self p w = (Ok (), w') →
  if estimator_bool (model self) then
    events w' = events w
    ∧ read_json (path_join p "sklearn_policy.json") w'
      = (Ok {[ "priority"%string := priority self ]}, w')
    ∧ pickle_load (path_join p "sklearn_model.pkl") w' = (Ok (_state self), w')
    ∧ ∃ fs, featurizer_persist (featurizer self) p (files w) = Ok fs
            ∧ ∀ q, q ≠ path_join p "sklearn_policy.json" →
                   q ≠ path_join p "sklearn_model.pkl" →
                   files w' !! q = fs !! q
  else
    files w' = files w
    ∧ events w'
      = events w ++ [Warning "Persist called without a trained model present. Nothing to persist then!"].
Proof.
  intros Hp. destruct (estimator_bool (model self)) eqn:Hm.
  - destruct (persist_ok self p w w' Hm Hp) as (fs & Hfs & Hfiles & Hev).
    split; [done|]. split; [|split].
    + unfold read_json. rewrite Hfiles. unfold policy_files.
      rewrite lookup_insert_ne.
      * by rewrite lookup_insert_eq.
      * intros Heq. apply path_join_inj in Heq. discriminate Heq.
    + unfold pickle_load. rewrite Hfiles. unfold policy_files.
      by rewrite lookup_insert_eq.
    + exists fs. split; [done|]. intros q Hq1 Hq2. rewrite Hfiles.
      unfold policy_files. by rewrite !lookup_insert_ne.
  - unfold persist in Hp. rewrite Hm in Hp. by injection Hp as <-.
Qed.

(** X13. A policy loaded from what [persist] wrote has the pickled state of
    the persisted policy, and persisting it anywhere does exactly what
    persisting the original there does. *)
Theorem persist_reloaded_same (self : SklearnPolicy E F) (p : path)
    (w w' : world E F) :
  featurizer_roundtrip E →
  isinstance_MaxHistoryTrackerFeaturizer (featurizer self) = true →
  estimator_bool (model self) = true →
  persist self p w = (Ok (), w') →
  ∃ loaded w'',
    load p w' = (Ok loaded, w'')
    ∧ _state loaded = _state self
    ∧ ∀ (q : path) (w0 : world E F), persist loaded q w0 = persist self q w0.
Proof.
  intros Hrt Hkind Hm Hp.
  destruct (load_persist self p w w' Hrt Hkind Hm Hp) as [w'' Hl].
  exists (reloaded self), w''. by repeat split.
Qed.

(** X14. With the directory and a MaxHistoryTrackerFeaturizer in place,
    [load] raises ValueError when the metadata file is missing ([read_file]
    reports a missing file that way), KeyError when the metadata has no
    "priority" entry, and OSError when the pickle file is missing; the world
    is left as it was. *)
Theorem load_incomplete (p : path) (w : world E F) (f : F) :
  is_Some (files w !! p) →
  featurizer_load p (files w) = Ok (Some f) →
  isinstance_MaxHistoryTrackerFeaturizer f = true →
  (files w !! path_join p "sklearn_policy.json" = None →
     load p w = (Raise ValueError, w))
  ∧ (∀ obj, files w !! path_join p "sklearn_policy.json" = Some (JsonFile obj) →
       obj !! "priority"%string = None →
       load p w = (Raise KeyError, w))
  ∧ (∀ obj pr, files w !! path_join p "sklearn_policy.json" = Some (JsonFile obj) →
       obj !! "priority"%string = Some pr →
       files w !! path_join p "sklearn_model.pkl" = None →
       load p w = (Raise OSError, w)).
Proof.
  intros Hdir Hfz Hkind.
  unfold load, mbind, M_bind, os_path_exists.
  rewrite bool_decide_eq_true_2 by done. cbn [negb]. rewrite Hfz, Hkind.
  unfold mret, M_ret, read_json. split; [|split].
  - by intros ->.
  - intros obj -> Hnone. by rewrite Hnone.
  - intros obj pr -> Hpr Hpkl. rewrite Hpr. unfold lift.
    rewrite new_policy_ok by done. unfold pickle_load. by rewrite Hpkl.
Qed.

(** X15. [load] never changes a file, whatever its outcome, and logs
    "Loaded sklearn model" exactly when it returns a policy. *)
Theorem load_read_only (p : path) (w : world E F) :
  files (load p w).2 = files w
  ∧ match (load p w).1 with
    | Ok _ => events (load p w).2 = events w ++ [Info "Loaded sklearn model"]
    | Raise _ => events (load p w).2 = events w
    end.
Proof.
  unfold load, mbind, M_bind, os_path_exists, mret, M_ret, read_json, lift,
    pickle_load, raise, logger_info, emit, modify.
  repeat (case_match; simplify_eq; cbn in *; try done).
Qed.

End PersistenceEdges.

Lemma persist_effects_witness :
  let self := Reference.trained in
  let p := ["models"%string] in
  let w' := (persist self p Reference.empty_world).2 in
  events w' = events Reference.empty_world
  ∧ read_json (path_join p "sklearn_policy.json") w'
    = (Ok {[ "priority"%string := priority self ]}, w')
  ∧ pickle_load (path_join p "sklearn_model.pkl") w' = (Ok (_state self), w')
  ∧ ∃ fs, featurizer_persist (featurizer self) p (files Reference.empty_world)
          = Ok fs
          ∧ ∀ q, q ≠ path_join p "sklearn_policy.json" →
                 q ≠ path_join p "sklearn_model.pkl" →
                 files w' !! q = fs !! q.
Proof.
  intros self p w'.
  assert (persist self p Reference.empty_world = (Ok (), w')) as Hp
    by (vm_compute; reflexivity).
  exact (persist_effects self p Reference.empty_world w' Hp).
Defined.

Lemma persist_reloaded_same_witness :
  let self := Reference.trained in
  let p := ["models"%string] in
  let w' := (persist self p Reference.empty_world).2 in
  ∃ loaded w'',
    load p w' = (Ok loaded, w'')
    ∧ _state loaded = _state self
    ∧ ∀ (q : path) (w0 : Reference.fs), persist loaded q w0 = persist self q w0.
Proof.
  intros self p w'.
  apply (persist_reloaded_same self p Reference.empty_world w').
  - apply Reference_roundtrip.
  - reflexivity.
  - reflexivity.
  - vm_compute. reflexivity.
Defined.

Lemma load_incomplete_witness :
  let fz := {| Reference.window := None; Reference.is_max_history := true |} in
  let bare : Reference.fs :=
    {| files := {[ ["models"%string] := Directory;
                   ["models"; "featurizer.json"]%string := FeaturizerFile fz ]};
       events := [] |} in
  let no_priority : Reference.fs :=
    {| files := {[ ["models"%string] := Directory;
                   ["models"; "featurizer.json"]%string := FeaturizerFile fz;
                   ["models"; "sklearn_policy.json"]%string := JsonFile ∅ ]};
       events := [] |} in
  load ["models"%string] bare = (Raise ValueError, bare)
  ∧ load ["models"%string] no_priority = (Raise KeyError, no_priority).
Proof.
  intros fz bare no_priority. split.
  - apply (proj1 (load_incomplete ["models"%string] bare fz
                    ltac:(eexists; vm_compute; reflexivity)
                    ltac:(vm_compute; reflexivity) eq_refl)).
    vm_compute. reflexivity.
  - apply (proj1 (proj2 (load_incomplete ["models"%string] no_priority fz
                           ltac:(eexists; vm_compute; reflexivity)
                           ltac:(vm_compute; reflexivity) eq_refl)) ∅).
    + vm_compute. reflexivity.
    + reflexivity.
Defined.

Section Codec.

Lemma position_Some (cs : list Z) (l : Z) (k : nat) :
  Encoder.position cs l = Some k → cs !! k = Some l.
Proof.
  revert k. induction cs as [|c cs IH]; intros k H; [done|].
  simpl in H. case_bool_decide as Hc.
  - injection H as <-. by subst.
  - destruct (Encoder.position cs l) as [k'|] eqn:Hp; [|done].
    simpl in H. injection H as <-. simpl. by apply IH.
Qed.

Lemma position_elem_of (cs : list Z) (l : Z) :
  l ∈ cs → is_Some (Encoder.position cs l).
Proof.
  induction cs as [|c cs IH]; intros H; [by apply not_elem_of_nil in H|].
  simpl. case_bool_decide as Hc; [by eexists|].
  apply elem_of_cons in H as [->|H]; [done|].
  destruct (IH H) as [k ->]. by eexists.
Qed.

End Codec.


Lemma transform_fit (encoder : LabelEncoder) (y : list Z) :
  ∃ codes, mapM (Encoder.position (Encoder.unique y)) y = Some codes.
Proof.
  destruct (mapM (Encoder.position (Encoder.unique y)) y) as [codes|] eqn:Hm;
    [by eexists|].
  exfalso. apply eq_None_not_Some in Hm. apply Hm.
  apply mapM_is_Some. apply Forall_forall. intros l Hl.
  apply position_elem_of. by apply unique_elem_of.
Qed.

Section TrainingEdges.

Context {E F T I : Type} `{!Estimator E} `{!TrackerFeaturizer F T I}.

Variable sklearn_shuffle : list history → list Z → list history * list Z.
Variable _get_valid_params : E → gmap string pyval → gmap string pyval.

(** X16. Whatever its outcome, [train] leaves the policy's featurizer,
    priority, cv, param_grid, scoring and shuffle flag as they were and
    changes no file. *)
Theorem train_frame (training_trackers : list T) (domain : Domain)
    (interpreter : I) (kwargs : gmap string pyval)
    (self : SklearnPolicy E F) (w : world E F) :
  let after := (train sklearn_shuffle _get_valid_params training_trackers domain
                      interpreter kwargs (self, w)).2 in
  featurizer after.1 = featurizer self
  ∧ priority after.1 = priority self
  ∧ cv after.1 = cv self
  ∧ param_grid after.1 = param_grid self
  ∧ scoring after.1 = scoring self
  ∧ shuffle after.1 = shuffle self
  ∧ files after.2 = files w.
Proof.
  destruct self as [fz pr mo c pg sc le sh tp].
  unfold train, model_architecture, _search_and_score, mbind, M_bind, self_,
    update_self, in_world, lift, modify, mret, M_ret, logger_info, emit, modify,
    set_model, set_label_encoder, set_train_params.
  cbn.
  repeat (case_match; simplify_eq; cbn in *; try done).
Qed.


(** X17. When [train] returns normally, the policy's training keywords are
    the old ones updated with the call's, its label encoder is a fresh one
    fit on the (shuffled, when [shuffle] is set) training labels, and its
    model is, without cv, a clone of the re-parameterised model fit on the
    assembled features and encoded labels, with only the completion message
    logged, and, with cv, the best estimator of a grid search scored by
    accuracy, whose best parameters are printed and best score logged. *)
Theorem train_outcome (training_trackers : list T) (domain : Domain)
    (interpreter : I) (kwargs : gmap string pyval)
    (self self' : SklearnPolicy E F) (w w' : world E F) :
  train sklearn_shuffle _get_valid_params training_trackers domain interpreter
        kwargs (self, w) = (Ok (), (self', w')) →
  ∃ X y X' y' model0 Xt yt,
    featurize_for_training (featurizer self) training_trackers domain
                           interpreter kwargs = Ok (X, y)
    ∧ (if shuffle self then sklearn_shuffle X y else (X, y)) = (X', y')
    ∧ _train_params self' = kwargs ∪ _train_params self
    ∧ set_params (model self)
                 (_get_valid_params (model self) (kwargs ∪ _train_params self))
      = Ok model0
    ∧ label_encoder self' = Encoder.fit (Encoder.clone (label_encoder self)) y'
    ∧ _preprocess_data self X' = Ok Xt
    ∧ Encoder.transform (label_encoder self') y' = Ok yt
    ∧ match cv self with
      | None =>
          fit (clone model0) Xt yt = Ok (model self')
          ∧ events w' = events w ++ [Info "Done fitting sklearn policy model"]
      | Some _ =>
          ∃ search,
            GridSearchCV_fit model0 (param_grid_or_empty self) (cv self)
                             (ScoringName "accuracy") Xt yt = Ok search
            ∧ model self' = best_estimator_ search
            ∧ events w'
              = events w ++ [PrintBestParams (best_params_ search);
                             Info "Done fitting sklearn policy model";
                             InfoCrossValidationScore (best_score_ search)]
      end.
Proof.
  destruct self as [fz pr mo c pg sc le sh tp].
  unfold train, model_architecture, _search_and_score, mbind, M_bind, self_,
    update_self, in_world, lift, modify, mret, M_ret, logger_info, emit, modify,
    set_model, set_label_encoder, set_train_params.
  cbn. intros Htrain.
  repeat (case_match; simplify_eq; cbn in * ).
  all: do 7 eexists; repeat (split; [try done; eassumption|]).
  all: match goal with Hm : mapM _ _ = Some _ |- _ => rewrite Hm end.
  all: split; [reflexivity|].
  all: try (eexists; split; [eassumption|]; split; [reflexivity|];
            by rewrite <- !app_assoc).
  all: by split.
Qed.


(** X18. [train] returns normally as soon as the featurizer, [set_params],
    the feature assembler and the fit (or the grid search) on the encoded
    labels do: encoding the training labels with the encoder just fit on them
    cannot fail.  The fit is only asked to succeed on the labels [train]
    passes it, the codes of the training labels. *)
Theorem train_succeeds (training_trackers : list T) (domain : Domain)
    (interpreter : I) (kwargs : gmap string pyval)
    (self : SklearnPolicy E F) (w : world E F)
    (X X' : list history) (y y' : list Z) (model0 : E) (Xt : ndarray) :
  featurize_for_training (featurizer self) training_trackers domain
                         interpreter kwargs = Ok (X, y) →
  (if shuffle self then sklearn_shuffle X y else (X, y)) = (X', y') →
  set_params (model self)
             (_get_valid_params (model self) (kwargs ∪ _train_params self))
    = Ok model0 →
  _preprocess_data self X' = Ok Xt →
  (∀ yt,
     Encoder.transform (Encoder.fit (Encoder.clone (label_encoder self)) y') y'
       = Ok yt →
     match cv self with
     | None => ∃ m, fit (clone model0) Xt yt = Ok m
     | Some _ => ∃ s, GridSearchCV_fit model0 (param_grid_or_empty self)
                        (cv self) (ScoringName "accuracy") Xt yt = Ok s
     end) →
  ∃ self' w' yt,
    train sklearn_shuffle _get_valid_params training_trackers domain interpreter
          kwargs (self, w) = (Ok (), (self', w'))
    ∧ Encoder.transform (label_encoder self') y' = Ok yt
    ∧ label_encoder self' = Encoder.fit (Encoder.clone (label_encoder self)) y'.
Proof.
  destruct self as [fz pr mo c pg sc le sh tp]. cbn.
  intros Hfeat Hsh Hset Hpre Hfit.
  destruct (transform_fit le y') as [codes Hcodes].
  assert (Encoder.transform (Encoder.fit (Encoder.clone le) y') y'
          = Ok (Z.of_nat <$> codes)) as Htr.
  { unfold Encoder.transform. cbn. by rewrite Hcodes. }
  specialize (Hfit (Z.of_nat <$> codes) Htr).
  unfold train, model_architecture, _search_and_score, mbind, M_bind, self_,
    update_self, in_world, lift, modify, mret, M_ret, logger_info, emit, modify,
    set_model, set_label_encoder, set_train_params.
  cbn. rewrite Hfeat.
  assert (∀ s : SklearnPolicy E F, featurizer s = fz →
            _preprocess_data s X' = Ok Xt) as Hpd.
  { intros s Hs. rewrite <- Hpre. unfold _preprocess_data, _collect_features,
      max_dialogue_length. by rewrite Hs. }
  destruct sh; [rewrite Hsh|injection Hsh as <- <-]; cbn; rewrite Hset; cbn.
  all: rewrite Hpd by reflexivity.
  all: unfold Encoder.transform in *; cbn in *; rewrite Hcodes; cbn.
  all: destruct c as [k|]; cbn in *.
  all: destruct Hfit as [r Hr].
  all: try (unfold param_grid_or_empty in *; cbn in * ).
  all: rewrite Hr; cbn.
  all: do 3 eexists; split; [reflexivity|]; cbn; by rewrite Hcodes.
Qed.

End TrainingEdges.

(** X19. Encoding labels with an encoder fit on those same labels succeeds
    and gives one code per label, each below the number of classes; decoding
    the codes gives the labels back. *)
Theorem encode_training_labels (encoder : LabelEncoder) (y : list Z) :
  ∃ yt,
    Encoder.transform (Encoder.fit encoder y) y = Ok yt
    ∧ length yt = length y
    ∧ Forall (λ c, 0 ≤ c < Z.of_nat (length (Encoder.unique y))) yt
    ∧ Encoder.inverse_transform (Encoder.fit encoder y) yt = Ok y.
Proof.
  unfold Encoder.transform, Encoder.inverse_transform, Encoder.fitted.
  cbn [Encoder.fit classes_ mbind result_bind].
  set (cs := Encoder.unique y).
  destruct (mapM (Encoder.position cs) y) as [codes|] eqn:Hm.
  2:{ exfalso. apply eq_None_not_Some in Hm. apply Hm.
      apply mapM_is_Some. apply Forall_forall. intros l Hl.
      apply position_elem_of. by apply unique_elem_of. }
  apply mapM_Some_1 in Hm.
  exists (Z.of_nat <$> codes). split; [done|].
  split; [rewrite length_fmap; symmetry; by eapply Forall2_length|].
  split.
  - apply Forall_fmap. apply Forall_forall. intros k Hk.
    apply list_elem_of_lookup in Hk as [i Hi].
    destruct (Forall2_lookup_r _ _ _ _ _ Hm Hi) as (l & _ & Hl).
    apply position_Some, lookup_lt_Some in Hl. simpl. lia.
  - erewrite mapM_Some_2; [done|].
    apply Forall2_fmap_l. apply Forall2_flip.
    eapply Forall2_impl; [exact Hm|]. intros l k Hl. simpl.
    rewrite bool_decide_eq_true_2 by lia. rewrite Nat2Z.id.
    by apply position_Some.
Qed.

Lemma train_outcome_witness :
  let domain := {| num_actions := 4 |} in
  let self := Reference.searching in
  let w := Reference.empty_world in
  let after := (train Reference.no_shuffle Reference.keep_params Reference.batch
                      domain () ∅ (self, w)).2 in
  ∃ X y X' y' model0 Xt yt,
    featurize_for_training (featurizer self) Reference.batch domain () ∅
      = Ok (X, y)
    ∧ (if shuffle self then Reference.no_shuffle X y else (X, y)) = (X', y')
    ∧ _train_params after.1 = ∅ ∪ _train_params self
    ∧ set_params (model self)
                 (Reference.keep_params (model self) (∅ ∪ _train_params self))
      = Ok model0
    ∧ label_encoder after.1
      = Encoder.fit (Encoder.clone (label_encoder self)) y'
    ∧ _preprocess_data self X' = Ok Xt
    ∧ Encoder.transform (label_encoder after.1) y' = Ok yt
    ∧ match cv self with
      | None =>
          fit (clone model0) Xt yt = Ok (model after.1)
          ∧ events after.2 = events w ++ [Info "Done fitting sklearn policy model"]
      | Some _ =>
          ∃ search,
            GridSearchCV_fit model0 (param_grid_or_empty self) (cv self)
                             (ScoringName "accuracy") Xt yt = Ok search
            ∧ model after.1 = best_estimator_ search
            ∧ events after.2
              = events w ++ [PrintBestParams (best_params_ search);
                             Info "Done fitting sklearn policy model";
                             InfoCrossValidationScore (best_score_ search)]
      end.
Proof.
  intros domain self w after.
  apply (train_outcome Reference.no_shuffle Reference.keep_params Reference.batch
           domain () ∅ self after.1 w after.2).
  vm_compute. reflexivity.
Defined.

Lemma train_succeeds_witness :
  ∃ (self' : Reference.policy) (w' : Reference.fs) (yt : list Z),
    train Reference.no_shuffle Reference.keep_params Reference.batch
          {| num_actions := 4 |} () ∅ (Reference.fresh, Reference.empty_world)
    = (Ok (), (self', w'))
    ∧ Encoder.transform (label_encoder self') (map snd Reference.batch) = Ok yt
    ∧ label_encoder self'
      = Encoder.fit (Encoder.clone (label_encoder Reference.fresh))
                    (map snd Reference.batch).
Proof.
  eapply (train_succeeds Reference.no_shuffle Reference.keep_params
            Reference.batch {| num_actions := 4 |} () ∅ Reference.fresh
            Reference.empty_world (map fst Reference.batch)
            (map fst Reference.batch) (map snd Reference.batch)
            (map snd Reference.batch)).
  - reflexivity.
  - reflexivity.
  - reflexivity.
  - vm_compute. reflexivity.
  - intros yt Hyt. vm_compute in Hyt. injection Hyt as <-.
    eexists. vm_compute. reflexivity.
Defined.

Section CliProps.

Import Cli.

Lemma str_split_nonempty sep s : str_split sep s ≠ [].
Proof.
  destruct s as [|c s]; simpl; [done|].
  destruct (Ascii.eqb c sep); [done|]. by destruct (str_split sep s).
Qed.

Lemma str_split_length sep s :
  length (str_split sep s) = S (count_char sep s).
Proof.
  induction s as [|c s IH]; simpl; [done|].
  destruct (Ascii.eqb c sep); simpl; [by rewrite IH|].
  pose proof (str_split_nonempty sep s).
  destruct (str_split sep s); [done|]. simpl in *. lia.
Qed.

Lemma str_join_split sep s : str_join sep (str_split sep s) = s.
Proof.
  induction s as [|c s IH]; simpl; [done|].
  pose proof (str_split_nonempty sep s) as Hne.
  destruct (Ascii.eqb c sep) eqn:Hc.
  - apply Ascii.eqb_eq in Hc as ->.
    destruct (str_split sep s) as [|p ps] eqn:Hs; [done|].
    cbn [str_join] in *. simpl. by rewrite IH.
  - destruct (str_split sep s) as [|p ps] eqn:Hs; [done|].
    destruct ps as [|q qs]; simpl in *; by rewrite <- IH.
Qed.

Lemma str_split_parts_clean sep s :
  Forall (λ part, count_char sep part = 0%nat) (str_split sep s).
Proof.
  induction s as [|c s IH]; simpl; [by repeat constructor|].
  destruct (Ascii.eqb c sep) eqn:Hc; [by constructor|].
  pose proof (str_split_nonempty sep s) as Hne.
  destruct (str_split sep s) as [|p ps]; [done|].
  apply Forall_cons in IH as [Hp Hps]. constructor; [|done].
  simpl. by rewrite Hc.
Qed.


(** The six lines [print_version] prints. *)
Lemma print_version_cases (env : environment) (s : process) :
  if bool_decide (count_char newline (sys_version env) = 1%nat) then
    ∃ python_version os_info,
      sys_version env = python_version +:+ String newline os_info
      ∧ count_char newline python_version = 0%nat
      ∧ count_char newline os_info = 0%nat
      ∧ print_version env s
        = (Ok (),
           {| sys_path := sys_path s;
              trace := trace s ++
                [Stdout ("Rasa Version     : " +:+ rasa_version env);
                 Stdout ("Rasa SDK Version : " +:+ rasa_sdk_version env);
                 Stdout ("Rasa X Version   : " +:+ format_optional (rasax_version env));
                 Stdout ("Python Version   : " +:+ python_version);
                 Stdout ("Operating System : " +:+ platform_platform env);
                 Stdout ("Python Path      : " +:+ sys_executable env)] |})
  else print_version env s = (Raise ValueError, s).
Proof.
  pose proof (str_split_length newline (sys_version env)) as Hlen.
  pose proof (str_join_split newline (sys_version env)) as Hjoin.
  pose proof (str_split_parts_clean newline (sys_version env)) as Hclean.
  unfold print_version.
  destruct (str_split newline (sys_version env)) as [|pv [|os [|x rest]]];
    simpl in Hlen; case_bool_decide; try lia; try done.
  exists pv, os. cbn [str_join] in Hjoin.
  apply Forall_cons in Hclean as [Hpv Hclean].
  apply Forall_cons in Hclean as [Hos _].
  repeat split; try done.
  unfold mbind, M_bind, log_event, modify. cbn.
  by rewrite <- !app_assoc.
Qed.

End CliProps.

(** X20. [print_version] unpacks [sys.version.split("\n")] into two names:
    when [sys.version] has exactly one newline it prints its six lines, the
    Python version being the text before the newline; otherwise it raises
    ValueError before printing anything. *)
Theorem print_version_outcome (env : Cli.environment) (s : Cli.process) :
  if bool_decide (Cli.count_char Cli.newline (Cli.sys_version env) = 1%nat) then
    ∃ python_version os_info,
      Cli.sys_version env = python_version +:+ String Cli.newline os_info
      ∧ Cli.count_char Cli.newline python_version = 0%nat
      ∧ Cli.count_char Cli.newline os_info = 0%nat
      ∧ (Cli.print_version env s).1 = Ok ()
      ∧ Cli.sys_path (Cli.print_version env s).2 = Cli.sys_path s
      ∧ Cli.trace (Cli.print_version env s).2
        = Cli.trace s ++
            [Cli.Stdout ("Rasa Version     : " +:+ Cli.rasa_version env);
             Cli.Stdout ("Rasa SDK Version : " +:+ Cli.rasa_sdk_version env);
             Cli.Stdout ("Rasa X Version   : "
                         +:+ Cli.format_optional (Cli.rasax_version env));
             Cli.Stdout ("Python Version   : " +:+ python_version);
             Cli.Stdout ("Operating System : " +:+ Cli.platform_platform env);
             Cli.Stdout ("Python Path      : " +:+ Cli.sys_executable env)]
  else Cli.print_version env s = (Raise ValueError, s).
Proof.
  pose proof (print_version_cases env s) as H.
  case_bool_decide; [|done].
  destruct H as (pv & os & H1 & H2 & H3 & ->). by exists pv, os.
Qed.

(** X21. From the parsed arguments on, [main] returns normally exactly when
    the command returned, or no command was given, the version was asked for
    and could be printed; it exits with status 1 exactly when neither a
    command nor the version was asked for, the command raised a
    RasaException, or the command itself exited with 1; any other exception
    of the command, and the ValueError of [print_version], reach the caller.
    The working directory is always inserted at position 1 of [sys.path],
    and with a command the version is never printed. *)
Theorem main_termination (env : Cli.environment) (args : Cli.namespace)
    (s : Cli.process) :
  let one_newline := Cli.count_char Cli.newline (Cli.sys_version env) = 1%nat in
  let outcome := (Cli.main env args s).1 in
  (outcome = Cli.Returned ↔
     Cli.func args = Some Cli.Returns
     ∨ (Cli.func args = None ∧ is_Some (Cli.version args) ∧ one_newline))
  ∧ (outcome = Cli.Exited 1 ↔
       (Cli.func args = None ∧ Cli.version args = None)
       ∨ (∃ c m, Cli.func args = Some (Cli.RaisesRasaException c m))
       ∨ Cli.func args = Some (Cli.SysExit 1))
  ∧ (∀ e, outcome = Cli.Raised e ↔
       Cli.func args = Some (Cli.Raises e)
       ∨ (Cli.func args = None ∧ is_Some (Cli.version args) ∧ ¬ one_newline
          ∧ e = ValueError))
  ∧ Cli.sys_path (Cli.main env args s).2
    = Cli.list_insert 1 (Cli.os_getcwd env) (Cli.sys_path s)
  ∧ (is_Some (Cli.func args) →
     ∀ line, Cli.Stdout line ∈ Cli.trace (Cli.main env args s).2 →
             Cli.Stdout line ∈ Cli.trace s).
Proof.
  intros one_newline outcome. subst outcome one_newline.
  destruct args as [ll f v]. unfold Cli.main.
  cbn [Cli.func Cli.version Cli.loglevel].
  destruct f as [cmd|].
  - split; [|split; [|split; [|split]]].
    + destruct cmd; cbn; firstorder congruence.
    + destruct cmd as [|c m| |code]; cbn.
      * firstorder congruence.
      * split; [intros _; right; left; by exists c, m|done].
      * firstorder congruence.
      * split; [intros [= ->]; by right; right|].
        intros [[H _]|[(c & m & H)|H]]; try discriminate H. by injection H as ->.
    + intros e. destruct cmd; cbn; firstorder congruence.
    + by destruct cmd.
    + intros _ line Hin. destruct cmd; cbn in Hin;
        rewrite ?elem_of_app, ?list_elem_of_singleton in Hin;
        firstorder congruence.
  - destruct v as [b|].
    + match goal with
      | |- context [Cli.print_version env ?p] =>
          pose proof (print_version_cases env p) as Hpv;
          destruct (Cli.print_version env p) as [[[]|e] s'] eqn:Hp
      end; case_bool_decide as Hone.
      * destruct Hpv as (pv & os & _ & _ & _ & Heq). injection Heq as ->.
        cbn. split; [|split; [|split; [|split]]]; try done.
        -- split; [by right|done].
        -- firstorder congruence.
        -- firstorder congruence.
      * discriminate Hpv.
      * destruct Hpv as (pv & os & _ & _ & _ & Heq). discriminate Heq.
      * injection Hpv as -> ->.
        cbn. split; [|split; [|split; [|split]]]; try done.
        -- firstorder congruence.
        -- firstorder congruence.
        -- intros e. split; [intros [= <-]; by right|]. firstorder congruence.
    + cbn. split; [|split; [|split; [|split]]]; try done.
      * firstorder congruence.
      * split; [by left|done].
      * firstorder congruence.
Qed.


Lemma main_termination_witness :
  let env := {| Cli.sys_version := "3.8";
                Cli.sys_executable := "python";
                Cli.platform_platform := "Linux";
                Cli.rasa_version := "2.0";
                Cli.rasa_sdk_version := "2.0";
                Cli.rasax_version := None;
                Cli.os_getcwd := "bot" |} in
  let args := {| Cli.loglevel := None;
                 Cli.func := Some Cli.Returns;
                 Cli.version := Some true |} in
  let s := {| Cli.sys_path := ["bin"; "lib"]%string; Cli.trace := [] |} in
  (Cli.main env args s).1 = Cli.Returned
  ∧ Cli.sys_path (Cli.main env args s).2 = ["bin"; "bot"; "lib"]%string.
Proof.
  intros env args s. split.
  - apply (proj2 (proj1 (main_termination env args s))). left. reflexivity.
  - apply (proj1 (proj2 (proj2 (proj2 (main_termination env args s))))).
Defined.
